(** * PM2.5 short-term predictor: a shallow embedding of [streamlit_app.py]

    The development follows the source file top to bottom:

    - [Py]         : the Python values the program manipulates (decoded
                     JSON, floats, exceptions) and the interpreter
                     operations it applies to them ([in], subscripting,
                     truthiness, [dict] item assignment);
    - [Calendar]   : pandas timestamps, [Timedelta(days=1)], [dayofyear];
    - [Gregorian]  : the civil calendar, as the yardstick for [Calendar];
    - [Frame]      : the daily feature table, [iloc], [rolling(3).mean()],
                     column selection by a list of labels, and the
                     forecast assembly (lines 101-111);
    - [Effects]    : a state-and-exception monad over the log of HTTP
                     requests, rendered widgets and model calls;
    - [App]        : [get_city_coordinates], [fetch_pm25], [fetch_weather],
                     [load_model] and the button handler;
    - [Vocabulary] : the notions the statements are phrased in;
    - [Scenarios]  : concrete tables, networks and models.

    The second half states and proves the properties: facts about the
    calendar routines, the table operations and the fetchers first, then
    the properties of the assembly, the prediction step, the fetchers and
    the handler. *)

From Stdlib Require Import List String Ascii ZArith QArith Bool Lia.
From Stdlib Require Import Permutation.
Import ListNotations.

Set Warnings "-register-all".

Local Open Scope string_scope.
Local Open Scope Z_scope.

(* ===================================================================== *)
(** ** Python values                                                      *)
(* ===================================================================== *)

Module Py.

(** Exceptions that can travel through the program.  [KeyError] carries the
    offending label; [OutOfBounds] is what timestamp arithmetic raises when
    it leaves the representable range; [External] stands for whatever
    [requests], [joblib] or the feature builder raise. *)
Inductive exn : Type :=
| KeyError (label : string)
| TypeError
| IndexError
| OutOfBounds
| External (msg : string).

(** A computation that either raises or returns. *)
Definition result (A : Type) : Type := (exn + A)%type.

Definition Ok {A} (a : A) : result A := inr a.
Definition Raise {A} (e : exn) : result A := inl e.

(** What [requests.Response.json()] can produce.  Numbers are kept as exact
    rationals: the program never computes with them, it only tests them for
    truthiness and interpolates them into a URL. *)
Inductive json : Type :=
| JNull
| JBool (b : bool)
| JNum (q : Q)
| JStr (s : string)
| JArr (items : list json)
| JObj (fields : list (string * json)).

(** [d.get(k)] on the fields of a decoded object: first binding wins (the
    decoder keeps one binding per key, so the choice is immaterial). *)
Fixpoint assoc {A} (k : string) (l : list (string * A)) : option A :=
  match l with
  | [] => None
  | (k', v) :: tl => if String.eqb k k' then Some v else assoc k tl
  end.

Definition has_key {A} (k : string) (l : list (string * A)) : bool :=
  match assoc k l with Some _ => true | None => false end.

(** [k in s] for two strings: substring test. *)
Definition is_substring (k s : string) : bool :=
  match String.index 0 k s with Some _ => true | None => false end.

(** [k in x] with [k] a string literal.  Objects test their keys, arrays
    compare their elements with [k], strings search for [k]; the remaining
    values are not iterable. *)
Definition contains (k : string) (x : json) : result bool :=
  match x with
  | JObj fields => Ok (has_key k fields)
  | JArr items =>
      Ok (existsb (fun j => match j with
                            | JStr s => String.eqb k s
                            | _ => false
                            end) items)
  | JStr s => Ok (is_substring k s)
  | JNull | JBool _ | JNum _ => Raise TypeError
  end.

(** [x[k]] with [k] a string literal. *)
Definition getitem (x : json) (k : string) : result json :=
  match x with
  | JObj fields =>
      match assoc k fields with
      | Some v => Ok v
      | None => Raise (KeyError k)
      end
  | _ => Raise TypeError
  end.

(** [x[0]].  A decoded object has string keys only, so the integer key is
    never found; a non-empty string yields its first character. *)
Definition getitem0 (x : json) : result json :=
  match x with
  | JArr (hd :: _) => Ok hd
  | JArr [] => Raise IndexError
  | JStr (String c _) => Ok (JStr (String c EmptyString))
  | JStr EmptyString => Raise IndexError
  | JObj _ => Raise (KeyError "0")
  | JNull | JBool _ | JNum _ => Raise TypeError
  end.

(** [bool(x)]. *)
Definition truthy (x : json) : bool :=
  match x with
  | JNull => false
  | JBool b => b
  | JNum q => negb (Qeq_bool q 0)
  | JStr s => negb (String.eqb s "")
  | JArr items => match items with [] => false | _ => true end
  | JObj fields => match fields with [] => false | _ => true end
  end.

(** [x is None]. *)
Definition is_None (x : json) : bool :=
  match x with JNull => true | _ => false end.

(** A [float]: not-a-number or a number.  Arithmetic on numbers is exact;
    rounding and infinities are outside the model. *)
Inductive float : Type :=
| NaN
| Num (q : Q).

(** The values stored in the forecast-input mapping. *)
Inductive value : Type :=
| VFloat (x : float)
| VInt (n : Z).

(** A [dict] with string keys, in insertion order. *)
Definition dict : Type := list (string * value).

(** [d[k] = v]: overwrite in place when the key exists, append otherwise. *)
Fixpoint setitem (d : dict) (k : string) (v : value) : dict :=
  match d with
  | [] => [(k, v)]
  | (k', v') :: tl =>
      if String.eqb k k' then (k, v) :: tl else (k', v') :: setitem tl k v
  end.

Definition keys (d : dict) : list string := map fst d.

End Py.

(* ===================================================================== *)
(** ** Timestamps                                                         *)
(* ===================================================================== *)

Module Calendar.

(** A pandas [Timestamp] is a signed 64-bit count of nanoseconds since
    1970-01-01T00:00.  The daily table carries proper instants (no [NaT]). *)
Definition Timestamp : Type := Z.

Definition ns_per_day : Z := 86400000000000.
Definition int64_max : Z := 9223372036854775807.

(** [pd.Timedelta(days=n)]. *)
Definition Timedelta_days (n : Z) : Z := n * ns_per_day.

(** [ts + delta]: the sum is checked against the representable range and
    the addition raises instead of wrapping. *)
Definition add (ts : Timestamp) (delta : Z) : Py.result Timestamp :=
  if ts + delta <=? int64_max then Py.Ok (ts + delta)
  else Py.Raise Py.OutOfBounds.

(** [pd.to_datetime] applied to a value that already is a timestamp. *)
Definition to_datetime (ts : Timestamp) : Timestamp := ts.

(** A broken-down date: the year, month and day fields of the timestamp. *)
Record date : Type := mkdate { year : Z; month : Z; day : Z }.

(** The leap-year test of the datetime routines:
    [(year & 3) == 0 && (year % 100 != 0 || year % 400 == 0)]. *)
Definition is_leapyear (y : Z) : bool :=
  (Z.land y 3 =? 0) && (negb (y mod 100 =? 0) || (y mod 400 =? 0)).

Definition days_per_month_table (leap : bool) : list Z :=
  if leap then [31; 29; 31; 30; 31; 30; 31; 31; 30; 31; 30; 31]
  else [31; 28; 31; 30; 31; 30; 31; 31; 30; 31; 30; 31].

Definition days_per_400years : Z := 400 * 365 + 100 - 4 + 1.

(** Split a day count since the epoch into a year and a day within that
    year: rebase on 2000-01-01, peel off whole 400-year cycles, then
    centuries, then 4-year groups, then years.  Division rounds down, which
    is what the routine arranges by hand for negative counts. *)
Definition days_to_yearsdays (days0 : Z) : Z * Z :=
  let days := days0 - (365 * 30 + 7) in
  let year := 400 * (days / days_per_400years) in
  let days := days mod days_per_400years in
  if 366 <=? days then
    let year := year + 100 * ((days - 1) / (100 * 365 + 25 - 1)) in
    let days := (days - 1) mod (100 * 365 + 25 - 1) in
    if 365 <=? days then
      let year := year + 4 * ((days + 1) / (4 * 365 + 1)) in
      let days := (days + 1) mod (4 * 365 + 1) in
      if 366 <=? days then
        (year + (days - 1) / 365 + 2000, (days - 1) mod 365)
      else (year + 2000, days)
    else (year + 2000, days)
  else (year + 2000, days).

(** Walk the month lengths until the remaining day count fits. *)
Fixpoint month_and_day (lengths : list Z) (m : Z) (days : Z) : Z * Z :=
  match lengths with
  | [] => (m, days + 1)
  | len :: tl =>
      if days <? len then (m, days + 1)
      else month_and_day tl (m + 1) (days - len)
  end.

Definition date_of_days (days : Z) : date :=
  let '(y, yd) := days_to_yearsdays days in
  let '(m, d) := month_and_day (days_per_month_table (is_leapyear y)) 1 yd in
  mkdate y m d.

(** The date fields of a timestamp. *)
Definition date_of (ts : Timestamp) : date := date_of_days (ts / ns_per_day).

(** Cumulative days before each month, common years first, then leap
    years (thirteen entries each). *)
Definition month_offset : list Z :=
  [0; 31; 59; 90; 120; 151; 181; 212; 243; 273; 304; 334; 365;
   0; 31; 60; 91; 121; 152; 182; 213; 244; 274; 305; 335; 366].

Definition get_day_of_year (d : date) : Z :=
  let isleap := if is_leapyear (year d) then 1 else 0 in
  nth (Z.to_nat (isleap * 13 + month d - 1)) month_offset 0 + day d.

(** [ts.dayofyear]. *)
Definition dayofyear (ts : Timestamp) : Z := get_day_of_year (date_of ts).

End Calendar.

(** The civil calendar, stated independently of the timestamp arithmetic:
    what "the next calendar day" and "ordinal day of the year" mean. *)
Module Gregorian.

Import Calendar.

Definition leap_year (y : Z) : bool :=
  (y mod 4 =? 0) && (negb (y mod 100 =? 0) || (y mod 400 =? 0)).

(** Thirty days has September, April, June and November; February has 28,
    or 29 in a leap year; the others have 31. *)
Definition days_in_month (leap : bool) (m : Z) : Z :=
  if m =? 2 then (if leap then 29 else 28)
  else if (m =? 4) || (m =? 6) || (m =? 9) || (m =? 11) then 30
  else 31.

Definition month_length (y m : Z) : Z := days_in_month (leap_year y) m.

Definition year_length (y : Z) : Z := if leap_year y then 366 else 365.

(** A date that exists in the calendar. *)
Definition valid (d : date) : bool :=
  (1 <=? month d) && (month d <=? 12) &&
  (1 <=? day d) && (day d <=? month_length (year d) (month d)).

(** The calendar day after [d]. *)
Definition tomorrow (d : date) : date :=
  if day d <? month_length (year d) (month d)
  then mkdate (year d) (month d) (day d + 1)
  else if month d <? 12 then mkdate (year d) (month d + 1) 1
  else mkdate (year d + 1) 1 1.

(** Days of the year elapsed before month [m] begins. *)
Definition days_before_month (y m : Z) : Z :=
  fold_right Z.add 0
    (map (fun k => month_length y (Z.of_nat k)) (seq 1 (Z.to_nat (m - 1)))).

(** Ordinal position of [d] within its year, counting from 1. *)
Definition ordinal (d : date) : Z :=
  days_before_month (year d) (month d) + day d.

Definition is_december_31 (d : date) : bool :=
  (month d =? 12) && (day d =? 31).

(** The calendar day before [d]. *)
Definition yesterday (d : date) : date :=
  if 1 <? day d then mkdate (year d) (month d) (day d - 1)
  else if 1 <? month d
       then mkdate (year d) (month d - 1) (month_length (year d) (month d - 1))
       else mkdate (year d - 1) 12 31.

(** 1 January 1970, the day instants are counted from. *)
Definition epoch : date := mkdate 1970 1 1.

(** The date [n] days after the epoch (before it when [n] is negative),
    found by walking the calendar one day at a time. *)
Definition date_of_day_number (n : Z) : date :=
  if 0 <=? n then Nat.iter (Z.to_nat n) tomorrow epoch
  else Nat.iter (Z.to_nat (- n)) yesterday epoch.

Definition nanoseconds_per_day : Z := 24 * 60 * 60 * 1000000000.

(** The civil date an instant falls on: its whole days since the epoch,
    rounded down, walked from the epoch. *)
Definition civil_date (nanoseconds : Z) : date :=
  date_of_day_number (nanoseconds / nanoseconds_per_day).

End Gregorian.

(* ===================================================================== *)
(** ** Tables                                                             *)
(* ===================================================================== *)

Module Frame.

Import Py Calendar.

(** Sequencing of computations that may raise. *)
Definition bind {A B} (c : result A) (k : A -> result B) : result B :=
  match c with
  | inl e => inl e
  | inr a => k a
  end.

Notation "'let!' x ':=' c 'in' k" := (bind c (fun x => k))
  (at level 10, x name, c at level 100, k at level 200).

(** An hourly table as the fetchers build it: column labels and rows. *)
Record DataFrame : Type := mkframe {
  columns : list string;
  rows : list (list json)
}.

(** [pd.DataFrame()]. *)
Definition DataFrame_new : DataFrame := mkframe [] [].

(** [df.empty]: some axis has length zero. *)
Definition empty (df : DataFrame) : bool :=
  match columns df, rows df with
  | _ :: _, _ :: _ => false
  | _, _ => true
  end.

(** One row of the daily feature table after [reset_index()]: the columns
    the forecast block reads. *)
Record DailyRow : Type := mkrow {
  timestamp : Timestamp;
  pm25 : float;
  temperature : float;
  relativehumidity : float;
  windspeed : float
}.

Definition DailyTable : Type := list DailyRow.

(** [reset_index()] moves the date index into the [timestamp] column; rows
    already carry it as a field. *)
Definition reset_index (t : DailyTable) : DailyTable := t.

(** [len(df)]. *)
Definition len {A} (t : list A) : Z := Z.of_nat (List.length t).

(** [t.iloc[i]]: positional access, negative positions count from the end,
    anything outside the table raises. *)
Definition iloc {A} (t : list A) (i : Z) : result A :=
  let j := if i <? 0 then i + len t else i in
  if (0 <=? j) && (j <? len t) then
    match nth_error t (Z.to_nat j) with
    | Some r => Ok r
    | None => Raise IndexError
    end
  else Raise IndexError.

(** Sum of a window; a missing observation makes the window incomplete. *)
Fixpoint window_sum (w : list float) : float :=
  match w with
  | [] => Num 0
  | NaN :: _ => NaN
  | Num x :: tl =>
      match window_sum tl with
      | NaN => NaN
      | Num s => Num (x + s)
      end
  end.

Definition window_mean (w : list float) : float :=
  match window_sum w with
  | NaN => NaN
  | Num s => Num (s / inject_Z (len w))
  end.

(** [s.rolling(window).mean()]: at each position the mean of the trailing
    [window] observations, [NaN] while fewer than [window] are available
    (the default [min_periods] is the window size). *)
Definition rolling_mean (window : nat) (s : list float) : list float :=
  map (fun i =>
         if (i + 1 <? window)%nat then NaN
         else window_mean (firstn window (skipn (i + 1 - window) s)))
      (seq 0 (List.length s)).

(** [pd.DataFrame([row])[cols]]: the one-row frame restricted to the listed
    labels, in the listed order; a label the row lacks raises [KeyError]
    (reported here with the first such label). *)
Fixpoint select_columns (row : dict) (cols : list string) : result dict :=
  match cols with
  | [] => Ok []
  | c :: tl =>
      match assoc c row with
      | None => Raise (KeyError c)
      | Some v => let! rest := select_columns row tl in Ok ((c, v) :: rest)
      end
  end.

(** Lines 101-111: the forecast-input mapping built from the daily table. *)
Definition assemble_X_pred (df_feats : DailyTable) (last_row : DailyRow)
  : result dict :=
  let X_pred : dict := [] in
  let X_pred := setitem X_pred "temperature" (VFloat (temperature last_row)) in
  let X_pred := setitem X_pred "relativehumidity"
                        (VFloat (relativehumidity last_row)) in
  let X_pred := setitem X_pred "windspeed" (VFloat (windspeed last_row)) in
  let X_pred := setitem X_pred "pm25_lag_1" (VFloat (pm25 last_row)) in
  let! lag_2 := (if 2 <=? len df_feats
                 then let! r := iloc df_feats (-2) in Ok (pm25 r)
                 else Ok (pm25 last_row)) in
  let X_pred := setitem X_pred "pm25_lag_2" (VFloat lag_2) in
  let! lag_3 := (if 3 <=? len df_feats
                 then let! r := iloc df_feats (-3) in Ok (pm25 r)
                 else Ok (pm25 last_row)) in
  let X_pred := setitem X_pred "pm25_lag_3" (VFloat lag_3) in
  let! lag_7 := (if 7 <=? len df_feats
                 then let! r := iloc df_feats (-7) in Ok (pm25 r)
                 else Ok (pm25 last_row)) in
  let X_pred := setitem X_pred "pm25_lag_7" (VFloat lag_7) in
  let! ma_3 := iloc (rolling_mean 3 (map pm25 df_feats)) (-1) in
  let X_pred := setitem X_pred "pm25_ma_3" (VFloat ma_3) in
  let! next_day := add (to_datetime (timestamp last_row)) (Timedelta_days 1) in
  let X_pred := setitem X_pred "dayofyear" (VInt (dayofyear next_day)) in
  Ok X_pred.

(** Lines 101-111 from the table alone: [last_row = df_feats.iloc[-1]]
    followed by the assignments above. *)
Definition assemble (df_feats : DailyTable) : result dict :=
  let! last_row := iloc df_feats (-1) in
  assemble_X_pred df_feats last_row.

(** A loaded regressor: all the program does with it is call [predict] on a
    one-row frame and take the first prediction. *)
Record Model : Type := mkmodel {
  predict : dict -> result float
}.

End Frame.

(* ===================================================================== *)
(** ** Effects                                                            *)
(* ===================================================================== *)

Module Effects.

Import Py Calendar Frame.

(** The three URLs the program builds, by endpoint and interpolated
    parameters. *)
Inductive url : Type :=
| GeocodingSearch (name : string)
| AirQualityHourly (lat lon : json) (start_date end_date : string)
| ArchiveHourly (lat lon : json) (start_date end_date : string).

(** The two hourly-data endpoints. *)
Definition is_data_endpoint (u : url) : bool :=
  match u with
  | GeocodingSearch _ => false
  | AirQualityHourly _ _ _ _ | ArchiveHourly _ _ _ _ => true
  end.

(** What a run leaves behind: requests sent, widgets rendered, calls into
    the model. *)
Inductive event : Type :=
| HttpGet (u : url)
| StError (msg : string) (cause : option exn)
| StWarning (msg : string)
| LoadModel
| ModelPredict (X_pred_df : dict)
| StWrite (label : string) (ts : Timestamp) (value : float)
| StSuccess (y_pred : float)
| StLineChart (series : list (Timestamp * float))
| StDownloadButton (file_name : string) (table : DailyTable).

Definition log : Type := list event.

(** The collaborators the source file imports.  The network answers as a
    function of everything that happened before the request, so repeated
    requests may be answered differently. *)
Record Services : Type := mkservices {
  requests_get_json : log -> url -> result json;
  pd_DataFrame : list (string * json) -> result DataFrame;
  make_daily_features : DataFrame -> DataFrame -> result DailyTable;
  joblib_load : result (Model * list string)
}.

(** Computations that append to the log and may raise. *)
Definition M (A : Type) : Type := log -> result A * log.

Definition ret {A} (a : A) : M A := fun h => (Ok a, h).

Definition mbind {A B} (c : M A) (k : A -> M B) : M B :=
  fun h =>
    match c h with
    | (inl e, h') => (inl e, h')
    | (inr a, h') => k a h'
    end.

Definition lift {A} (r : result A) : M A := fun h => (r, h).

Definition emit (ev : event) : M unit := fun h => (Ok tt, (h ++ [ev])%list).

(** [try: x = body / except Exception as e: handler / rest]: the handler
    returns from the enclosing function, [rest] runs when nothing was
    raised. *)
Definition attempt {A B} (body : M A) (handler : exn -> M B) (rest : A -> M B)
  : M B :=
  fun h =>
    match body h with
    | (inl e, h') => handler e h'
    | (inr a, h') => rest a h'
    end.

Notation "x <- c ;; k" := (mbind c (fun x => k))
  (at level 61, c at next level, right associativity).
Notation "c ;; k" := (mbind c (fun _ => k))
  (at level 61, right associativity).

(** The events a run appended, given the log before and after. *)
Definition appended (before after : log) : log :=
  skipn (List.length before) after.

Definition is_data_request (ev : event) : bool :=
  match ev with
  | HttpGet u => is_data_endpoint u
  | _ => false
  end.

Definition is_prediction (ev : event) : bool :=
  match ev with
  | ModelPredict _ => true
  | _ => false
  end.

Definition is_error_message (ev : event) : bool :=
  match ev with
  | StError _ _ => true
  | _ => false
  end.

End Effects.

(* ===================================================================== *)
(** ** The application                                                    *)
(* ===================================================================== *)

Module App.

Import Py Calendar Frame Effects.

Section WithServices.

Variable sv : Services.

(** [requests.get(url, timeout=10).json()]. *)
Definition get_json (u : url) : M json :=
  fun h => (requests_get_json sv h u, (h ++ [HttpGet u])%list).

Definition st_error (msg : string) (cause : option exn) : M unit :=
  emit (StError msg cause).

Definition st_warning (msg : string) : M unit := emit (StWarning msg).

Definition get_city_coordinates (city : string) : M (json * json) :=
  let geo_url := GeocodingSearch city in
  attempt (get_json geo_url)
    (fun e =>
       st_error "Error fetching city coordinates: " (Some e) ;;
       ret (JNull, JNull))
    (fun resp =>
       has_results <- lift (contains "results" resp) ;;
       if negb has_results then ret (JNull, JNull) else
       results <- lift (getitem resp "results") ;;
       if negb (truthy results) then ret (JNull, JNull) else
       results <- lift (getitem resp "results") ;;
       first <- lift (getitem0 results) ;;
       lat <- lift (getitem first "latitude") ;;
       results <- lift (getitem resp "results") ;;
       first <- lift (getitem0 results) ;;
       lon <- lift (getitem first "longitude") ;;
       ret (lat, lon)).

Definition fetch_pm25 (city start_date end_date : string) : M DataFrame :=
  coords <- get_city_coordinates city ;;
  let '(lat, lon) := coords in
  if is_None lat then ret DataFrame_new else
  let url := AirQualityHourly lat lon start_date end_date in
  attempt (get_json url)
    (fun e =>
       st_error "Error fetching PM2.5 data: " (Some e) ;;
       ret DataFrame_new)
    (fun resp =>
       has_hourly <- lift (contains "hourly" resp) ;;
       if negb has_hourly then ret DataFrame_new else
       hourly <- lift (getitem resp "hourly") ;;
       has_pm <- lift (contains "pm2_5" hourly) ;;
       if negb has_pm then ret DataFrame_new else
       hourly <- lift (getitem resp "hourly") ;;
       time <- lift (getitem hourly "time") ;;
       hourly <- lift (getitem resp "hourly") ;;
       pm <- lift (getitem hourly "pm2_5") ;;
       lift (pd_DataFrame sv [("timestamp", time); ("pm25", pm)])).

(** [all(k in resp["hourly"] for k in ks)]: the subscript is evaluated anew
    for each key and the scan stops at the first key that is missing. *)
Fixpoint all_in_hourly (ks : list string) (resp : json) : result bool :=
  match ks with
  | [] => Ok true
  | k :: tl =>
      let! hourly := getitem resp "hourly" in
      let! b := contains k hourly in
      if b then all_in_hourly tl resp else Ok false
  end.

Definition fetch_weather (city start_date end_date : string) : M DataFrame :=
  coords <- get_city_coordinates city ;;
  let '(lat, lon) := coords in
  if is_None lat then ret DataFrame_new else
  let url := ArchiveHourly lat lon start_date end_date in
  attempt (get_json url)
    (fun e =>
       st_error "Error fetching weather data: " (Some e) ;;
       ret DataFrame_new)
    (fun resp =>
       has_hourly <- lift (contains "hourly" resp) ;;
       if negb has_hourly then ret DataFrame_new else
       has_all <- lift (all_in_hourly ["temperature_2m";
                                       "relative_humidity_2m";
                                       "windspeed_10m"] resp) ;;
       if negb has_all then ret DataFrame_new else
       hourly <- lift (getitem resp "hourly") ;;
       time <- lift (getitem hourly "time") ;;
       hourly <- lift (getitem resp "hourly") ;;
       temp <- lift (getitem hourly "temperature_2m") ;;
       hourly <- lift (getitem resp "hourly") ;;
       rh <- lift (getitem hourly "relative_humidity_2m") ;;
       hourly <- lift (getitem resp "hourly") ;;
       ws <- lift (getitem hourly "windspeed_10m") ;;
       lift (pd_DataFrame sv [("timestamp", time); ("temperature", temp);
                              ("relativehumidity", rh); ("windspeed", ws)])).

(** [load_model()]: the cached artifact, or the failure to read it. *)
Definition load_model : M (Model * list string) :=
  fun h => (joblib_load sv, (h ++ [LoadModel])%list).

(** [model.predict(X_pred_df)[0]]. *)
Definition model_predict (model : Model) (X_pred_df : dict) : M float :=
  fun h => (predict model X_pred_df, (h ++ [ModelPredict X_pred_df])%list).

(** Lines 114-117: select the model's columns, then predict. *)
Definition predict_step (model : Model) (feature_cols : list string)
                        (X_pred : dict) : M float :=
  X_pred_df <- lift (select_columns X_pred feature_cols) ;;
  model_predict model X_pred_df.

(** Lines 97-130: everything the handler does once the daily table
    exists. *)
Definition forecast (city : string) (df_feats : DailyTable) : M unit :=
  if len df_feats <? 10 then
    st_warning
      "Not enough daily rows after feature creation for stable prediction."
  else
    loaded <- load_model ;;
    let '(model, feature_cols) := loaded in
    last_row <- lift (iloc df_feats (-1)) ;;
    X_pred <- lift (assemble_X_pred df_feats last_row) ;;
    y_pred <- predict_step model feature_cols X_pred ;;
    emit (StWrite "Latest observed daily PM2.5 (last date):"
                  (timestamp last_row) (pm25 last_row)) ;;
    emit (StSuccess y_pred) ;;
    emit (StLineChart (map (fun r => (timestamp r, pm25 r)) df_feats)) ;;
    emit (StDownloadButton (city ++ "_daily_features.csv") df_feats).

(** Lines 85-130: the button handler. *)
Definition on_button (city start_date end_date : string) : M unit :=
  pm_df <- fetch_pm25 city start_date end_date ;;
  if empty pm_df then
    st_error
      "No PM2.5 data found for that city/time. Try different dates or city name."
      None
  else
    met_df <- fetch_weather city start_date end_date ;;
    if empty met_df then st_error "Couldn't fetch meteorology." None
    else
      df_feats <- lift (make_daily_features sv pm_df met_df) ;;
      let df_feats := reset_index df_feats in
      forecast city df_feats.

End WithServices.

End App.

(* ===================================================================== *)
(** ** Vocabulary of the statements                                       *)
(* ===================================================================== *)

Module Vocabulary.

Import Py Calendar Frame Effects.

(** Equality of floats up to the representation of the rational. *)
Definition float_eq (a b : float) : Prop :=
  match a, b with
  | NaN, NaN => True
  | Num x, Num y => x == y
  | _, _ => False
  end.

(** The nine labels of the forecast input, in assignment order. *)
Definition X_pred_keys : list string :=
  ["temperature"; "relativehumidity"; "windspeed"; "pm25_lag_1";
   "pm25_lag_2"; "pm25_lag_3"; "pm25_lag_7"; "pm25_ma_3"; "dayofyear"].

(** The last row of a table, when there is one. *)
Definition last_row (t : DailyTable) : option DailyRow :=
  nth_error t (List.length t - 1).

(** The row counted [k] from the end, the last row being number 1. *)
Definition kth_from_last (k : nat) (t : DailyTable) : option DailyRow :=
  if (Nat.leb 1 k && Nat.leb k (List.length t))%bool
  then nth_error t (List.length t - k) else None.

(** The row that lies [k] rows before the last row of the table. *)
Definition rows_before_last (k : nat) (t : DailyTable) : option DailyRow :=
  if Nat.leb (k + 1) (List.length t)
  then nth_error t (List.length t - 1 - k) else None.

(** The value the assembly stores under [pm25_lag_k]. *)
Definition lag_value (k : nat) (t : DailyTable) (last : DailyRow) : float :=
  match kth_from_last k t with
  | Some r => pm25 r
  | None => pm25 last
  end.

(** The value the assembly stores under [pm25_ma_3]. *)
Definition ma_3_value (t : DailyTable) : float :=
  if (List.length t <? 3)%nat then NaN
  else window_mean (firstn 3 (skipn (List.length t - 3) (map pm25 t))).

(** The mapping the assembly builds from a table and its last row. *)
Definition X_pred_of (t : DailyTable) (last : DailyRow) : dict :=
  [("temperature", VFloat (temperature last));
   ("relativehumidity", VFloat (relativehumidity last));
   ("windspeed", VFloat (windspeed last));
   ("pm25_lag_1", VFloat (pm25 last));
   ("pm25_lag_2", VFloat (lag_value 2 t last));
   ("pm25_lag_3", VFloat (lag_value 3 t last));
   ("pm25_lag_7", VFloat (lag_value 7 t last));
   ("pm25_ma_3", VFloat (ma_3_value t));
   ("dayofyear", VInt (dayofyear (timestamp last + Timedelta_days 1)))].

(** Adding a day to the timestamp stays within the representable range. *)
Definition next_day_representable (r : DailyRow) : Prop :=
  timestamp r + ns_per_day <= int64_max.

(** The table is long enough for the handler to assemble a forecast. *)
Definition reaches_assembly (t : DailyTable) : Prop := 10 <= len t.

(** The listed columns of a row, in the listed order; labels the row lacks
    are skipped. *)
Definition restrict (row : dict) (cols : list string) : dict :=
  flat_map (fun c => match assoc c row with
                     | Some v => [(c, v)]
                     | None => []
                     end) cols.

(** Every listed label is a column of the row. *)
Definition all_present (row : dict) (cols : list string) : bool :=
  forallb (fun c => has_key c row) cols.

(** The replies [get_city_coordinates] is written for, with the pair it
    returns on each: a failed call, an object without usable [results], an
    object whose first result is an object with both coordinates.  Other
    shapes have no entry. *)
Definition coordinates_of_reply (reply : result json) : option (json * json) :=
  match reply with
  | inl _ => Some (JNull, JNull)
  | inr (JObj fields) =>
      match assoc "results" fields with
      | None => Some (JNull, JNull)
      | Some results =>
          if truthy results then
            match results with
            | JArr (JObj entry :: _) =>
                match assoc "latitude" entry, assoc "longitude" entry with
                | Some lat, Some lon => Some (lat, lon)
                | _, _ => None
                end
            | _ => None
            end
          else Some (JNull, JNull)
      end
  | inr _ => None
  end.

(** A computation only ever appends to the log, and only events that
    satisfy [P]. *)
Definition appends_only (P : event -> bool) {A} (c : M A) : Prop :=
  forall h, exists l, snd (c h) = (h ++ l)%list /\ forallb P l = true.

Definition not_prediction (ev : event) : bool := negb (is_prediction ev).

Definition any_event (ev : event) : bool := true.

(** The integers [start], [start + 1], ... ([n] of them). *)
Fixpoint zrange (start : Z) (n : nat) : list Z :=
  match n with
  | O => []
  | S n' => start :: zrange (start + 1) n'
  end.

(** Day 0 of the 400-year cycle the date routines are based on:
    2000-01-01. *)
Definition cycle_base : Z := 365 * 30 + 7.

(** The part of [days_to_yearsdays] that works inside one 400-year cycle:
    from a day of the cycle to a year of the cycle and a day of that
    year. *)
Definition cycle_yearsdays (days : Z) : Z * Z :=
  if 366 <=? days then
    let year := 100 * ((days - 1) / 36524) in
    let days := (days - 1) mod 36524 in
    if 365 <=? days then
      let year := year + 4 * ((days + 1) / 1461) in
      let days := (days + 1) mod 1461 in
      if 366 <=? days then (year + (days - 1) / 365, (days - 1) mod 365)
      else (year, days)
    else (year, days)
  else (0, days).

(** The year and day of the year that follow a given one. *)
Definition year_step (p : Z * Z) : Z * Z :=
  if snd p + 1 <? Gregorian.year_length (fst p)
  then (fst p, snd p + 1) else (fst p + 1, 0).

(** The month and day that follow a given one inside a year. *)
Definition month_step (leap : bool) (p : Z * Z) : Z * Z :=
  if snd p <? Gregorian.days_in_month leap (fst p)
  then (fst p, snd p + 1) else (fst p + 1, 1).

Definition pair_eqb (a b : Z * Z) : bool :=
  (fst a =? fst b) && (snd a =? snd b).

(** One day of a year, common or leap: the month walk lands on a valid
    month and day; the next day of the year is the next day of the month
    or the first of the next month; the last day of the year is
    December 31. *)
Definition year_day_ok (leap : bool) (yd : Z) : bool :=
  let p := month_and_day (days_per_month_table leap) 1 yd in
  (1 <=? fst p) && (fst p <=? 12) &&
  (1 <=? snd p) && (snd p <=? Gregorian.days_in_month leap (fst p)) &&
  (if yd + 1 <? (if leap then 366 else 365)
   then pair_eqb (month_and_day (days_per_month_table leap) 1 (yd + 1))
                 (month_step leap p) &&
        ((snd p <? Gregorian.days_in_month leap (fst p)) || (fst p <? 12))
   else (fst p =? 12) && (snd p =? 31)).

(** The URLs requested in a stretch of log, in order. *)
Definition requests_of (l : log) : list url :=
  flat_map (fun ev => match ev with
                      | HttpGet u => [u]
                      | _ => []
                      end) l.

Definition not_request (ev : event) : bool :=
  match ev with
  | HttpGet _ => false
  | _ => true
  end.

Definition not_archive_request (ev : event) : bool :=
  match ev with
  | HttpGet (ArchiveHourly _ _ _ _) => false
  | _ => true
  end.

(** The four outputs of a successful forecast: the latest observation, the
    predicted value, the chart and the download button. *)
Definition is_rendering (ev : event) : bool :=
  match ev with
  | StWrite _ _ _ | StSuccess _ | StLineChart _ | StDownloadButton _ _ => true
  | _ => false
  end.

Definition not_rendering (ev : event) : bool := negb (is_rendering ev).

Definition is_load_model (ev : event) : bool :=
  match ev with
  | LoadModel => true
  | _ => false
  end.

(** The messages the handler itself shows: its warning and its errors,
    which carry no exception (the fetchers' errors do). *)
Definition handler_messages (l : log) : list string :=
  flat_map (fun ev => match ev with
                      | StError msg None => [msg]
                      | StWarning msg => [msg]
                      | _ => []
                      end) l.

Definition no_handler_message (ev : event) : bool :=
  match ev with
  | StError _ None | StWarning _ => false
  | _ => true
  end.

(** The data request a fetcher sends after a coordinate lookup: none when
    the lookup raised or returned an absent latitude. *)
Definition data_request_after
           (endpoint : json -> json -> string -> string -> url)
           (lookup : result (json * json)) (start_date end_date : string)
  : list url :=
  match lookup with
  | inl _ => []
  | inr (lat, lon) =>
      if is_None lat then [] else [endpoint lat lon start_date end_date]
  end.

End Vocabulary.

(* ===================================================================== *)
(** ** Concrete runs                                                      *)
(* ===================================================================== *)

Module Scenarios.

Import Py Calendar Frame Effects Vocabulary.

(** Midnight of the [n]-th day since the epoch. *)
Definition midnight (n : Z) : Timestamp := n * ns_per_day.

(** 2024-01-01 is day 19723. *)
Definition jan_1_2024 : Z := 19723.

(** A day of January 2024 with pm25 equal to its offset from New Year. *)
Definition january_row (i : Z) : DailyRow :=
  mkrow (midnight (jan_1_2024 + i)) (Num (inject_Z i))
        (Num 20) (Num 50) (Num 3).

(** Ten days, pm25 = 0, 1, ..., 9. *)
Definition ten_days : DailyTable := map january_row (zrange 0 10).

(** A single day. *)
Definition one_day : DailyTable := [january_row 0].

(** Ten days ending on 2023-12-31, every pm25 equal to 42. *)
Definition constant_days : DailyTable :=
  map (fun i => mkrow (midnight (jan_1_2024 - 10 + i)) (Num 42)
                      (Num 20) (Num 50) (Num 3))
      (zrange 0 10).

(** A regressor that answers 0 whatever it is given. *)
Definition constant_model : Model := mkmodel (fun _ => Ok (Num 0)).

(** The nine labels in reverse order. *)
Definition reversed_features : list string := rev X_pred_keys.

(** Two of the nine labels. *)
Definition two_features : list string := ["dayofyear"; "temperature"].

(** A list naming a column the assembly never produces. *)
Definition unknown_feature : list string := ["temperature"; "no2"].

(** Rows out of columns of equal length. *)
Fixpoint transpose (cols : list (list json)) (n : nat) : list (list json) :=
  match n with
  | O => []
  | S n' => map (hd JNull) cols :: transpose (map (@tl json) cols) n'
  end.

(** A frame out of labelled arrays. *)
Definition frame_of (cols : list (string * json)) : DataFrame :=
  let arrays := map (fun c => match snd c with
                              | JArr items => items
                              | _ => []
                              end) cols in
  mkframe (map fst cols) (transpose arrays (List.length (hd [] arrays))).

(** Services around a given network; the other collaborators behave: the
    frame constructor succeeds, the feature builder returns the ten days
    above and the artifact holds the constant model with the nine labels. *)
Definition services_over (net : log -> url -> result json) : Services :=
  mkservices net
             (fun cols => Ok (frame_of cols))
             (fun _ _ => Ok ten_days)
             (Ok (constant_model, X_pred_keys)).

Definition delhi : json :=
  JObj [("results",
         JArr [JObj [("latitude", JNum (143 # 5));
                     ("longitude", JNum (386 # 5))]])].

(** The geocoder finds nothing. *)
Definition net_no_match (_ : log) (_ : url) : result json :=
  Ok (JObj [("generationtime_ms", JNum (1 # 2))]).

(** The geocoder returns an entry without coordinates. *)
Definition net_bare_entry (_ : log) (_ : url) : result json :=
  Ok (JObj [("results", JArr [JObj []])]).

(** The geocoder returns a place name where an entry object belongs. *)
Definition net_string_entry (_ : log) (_ : url) : result json :=
  Ok (JObj [("results", JArr [JStr "Delhi"])]).

(** The geocoder answers properly. *)
Definition net_delhi (_ : log) (_ : url) : result json := Ok delhi.

(** The data endpoints answer with their measured series but without the
    [time] array. *)
Definition net_no_time (_ : log) (u : url) : result json :=
  match u with
  | GeocodingSearch _ => Ok delhi
  | AirQualityHourly _ _ _ _ =>
      Ok (JObj [("hourly", JObj [("pm2_5", JArr [JNum 41; JNum 42])])])
  | ArchiveHourly _ _ _ _ =>
      Ok (JObj [("hourly",
                 JObj [("temperature_2m", JArr [JNum 20; JNum 21]);
                       ("relative_humidity_2m", JArr [JNum 50; JNum 51]);
                       ("windspeed_10m", JArr [JNum 3; JNum 4])])])
  end.

(** Every endpoint answers as documented. *)
Definition net_good (_ : log) (u : url) : result json :=
  match u with
  | GeocodingSearch _ => Ok delhi
  | AirQualityHourly _ _ _ _ =>
      Ok (JObj [("hourly",
                 JObj [("time", JArr [JStr "2024-01-01T00:00";
                                      JStr "2024-01-01T01:00"]);
                       ("pm2_5", JArr [JNum 41; JNum 42])])])
  | ArchiveHourly _ _ _ _ =>
      Ok (JObj [("hourly",
                 JObj [("time", JArr [JStr "2024-01-01T00:00";
                                      JStr "2024-01-01T01:00"]);
                       ("temperature_2m", JArr [JNum 20; JNum 21]);
                       ("relative_humidity_2m", JArr [JNum 50; JNum 51]);
                       ("windspeed_10m", JArr [JNum 3; JNum 4])])])
  end.

(** The geocoder answers, the data endpoints time out. *)
Definition net_data_down (_ : log) (u : url) : result json :=
  match u with
  | GeocodingSearch _ => Ok delhi
  | _ => Raise (External "timed out")
  end.

(** The geocoder answers, the data endpoints report an error instead of
    hourly data. *)
Definition net_no_hourly (_ : log) (u : url) : result json :=
  match u with
  | GeocodingSearch _ => Ok delhi
  | _ => Ok (JObj [("error", JBool true); ("reason", JStr "out of range")])
  end.

(** The geocoder itself cannot be reached. *)
Definition net_down (_ : log) (_ : url) : result json :=
  Raise (External "connection refused").

(** The last row of the constant table: 2023-12-31. *)
Definition new_years_eve_row : DailyRow :=
  mkrow (midnight (jan_1_2024 - 1)) (Num 42) (Num 20) (Num 50) (Num 3).

(** Ten days of January 2024 whose last but one pm25 is missing. *)
Definition gap_days : DailyTable :=
  (map january_row (zrange 0 8) ++
   [mkrow (midnight (jan_1_2024 + 8)) NaN (Num 20) (Num 50) (Num 3);
    january_row 9])%list.

(** One row stamped with the largest representable instant. *)
Definition last_instant : DailyTable :=
  [mkrow int64_max (Num 5) (Num 20) (Num 50) (Num 3)].

End Scenarios.

(* ===================================================================== *)
(** ** Properties of the calendar routines                                *)
(* ===================================================================== *)

Module CalendarFacts.

Import Py Calendar Frame Vocabulary.

Lemma land_3_mod_4 (y : Z) : Z.land y 3 = y mod 4.
Proof.
  change 3 with (Z.ones 2). rewrite Z.land_ones by lia. reflexivity.
Qed.

Lemma is_leapyear_leap_year (y : Z) : is_leapyear y = Gregorian.leap_year y.
Proof.
  unfold is_leapyear, Gregorian.leap_year. now rewrite land_3_mod_4.
Qed.

Lemma leap_year_periodic (y c : Z) :
  Gregorian.leap_year (y + 400 * c) = Gregorian.leap_year y.
Proof.
  unfold Gregorian.leap_year.
  replace ((y + 400 * c) mod 4) with (y mod 4)
    by (replace (400 * c) with ((100 * c) * 4) by ring;
        now rewrite Z.mod_add by lia).
  replace ((y + 400 * c) mod 100) with (y mod 100)
    by (replace (400 * c) with ((4 * c) * 100) by ring;
        now rewrite Z.mod_add by lia).
  replace ((y + 400 * c) mod 400) with (y mod 400)
    by (replace (400 * c) with (c * 400) by ring;
        now rewrite Z.mod_add by lia).
  reflexivity.
Qed.

Ltac split_tests :=
  repeat match goal with
         | |- context [Z.leb ?a ?b] => destruct (Z.leb_spec a b)
         end;
  cbn [fst snd];
  repeat match goal with
         | |- context [Z.eqb ?a ?b] => destruct (Z.eqb_spec a b)
         end;
  cbn [andb orb negb];
  repeat match goal with
         | |- context [Z.ltb ?a ?b] => destruct (Z.ltb_spec a b)
         end.

(** Inside a cycle the year stays below 400 and the day within the year. *)
Lemma cycle_yearsdays_range (r : Z) :
  0 <= r < 146097 ->
  0 <= fst (cycle_yearsdays r) < 400 /\
  0 <= snd (cycle_yearsdays r) <
    Gregorian.year_length (fst (cycle_yearsdays r)).
Proof.
  intros Hr.
  unfold cycle_yearsdays, Gregorian.year_length, Gregorian.leap_year.
  cbv zeta. split_tests; Z.div_mod_to_equations; lia.
Qed.

(** Inside a cycle the next day is the next day of the year, or the first
    day of the next year. *)
Lemma cycle_yearsdays_succ (r : Z) :
  0 <= r < 146096 ->
  cycle_yearsdays (r + 1) = year_step (cycle_yearsdays r).
Proof.
  intros Hr.
  unfold year_step, cycle_yearsdays, Gregorian.year_length,
    Gregorian.leap_year.
  cbv zeta. split_tests; try (f_equal; Z.div_mod_to_equations; lia).
Qed.

Lemma cycle_yearsdays_last : year_step (cycle_yearsdays 146096) = (400, 0).
Proof. reflexivity. Qed.

(** [days_to_yearsdays] is the in-cycle computation shifted by whole
    cycles. *)
Lemma days_to_yearsdays_cycle (n : Z) :
  days_to_yearsdays n =
  (2000 + 400 * ((n - cycle_base) / 146097)
   + fst (cycle_yearsdays ((n - cycle_base) mod 146097)),
   snd (cycle_yearsdays ((n - cycle_base) mod 146097))).
Proof.
  unfold days_to_yearsdays, cycle_yearsdays, cycle_base.
  change days_per_400years with 146097.
  change (100 * 365 + 25 - 1) with 36524.
  change (4 * 365 + 1) with 1461.
  set (q := (n - (365 * 30 + 7)) / 146097).
  set (r := (n - (365 * 30 + 7)) mod 146097).
  cbv zeta.
  repeat match goal with
         | |- context [if ?b then _ else _] => destruct b
         end; cbn [fst snd]; f_equal; ring.
Qed.

Lemma year_length_periodic (y c : Z) :
  Gregorian.year_length (y + 400 * c) = Gregorian.year_length y.
Proof. unfold Gregorian.year_length. now rewrite leap_year_periodic. Qed.

Lemma year_step_shift (c : Z) (p : Z * Z) :
  year_step (fst p + 400 * c, snd p) =
  (fst (year_step p) + 400 * c, snd (year_step p)).
Proof.
  unfold year_step. cbn [fst snd]. rewrite year_length_periodic.
  destruct (snd p + 1 <? _); cbn [fst snd]; f_equal; ring.
Qed.

(** Every day count falls inside its year, and the next count is the next
    day of that year or the first day of the next. *)
Lemma days_to_yearsdays_succ (n : Z) :
  0 <= snd (days_to_yearsdays n) <
    Gregorian.year_length (fst (days_to_yearsdays n)) /\
  days_to_yearsdays (n + 1) = year_step (days_to_yearsdays n).
Proof.
  rewrite !days_to_yearsdays_cycle.
  set (q := (n - cycle_base) / 146097).
  set (r := (n - cycle_base) mod 146097).
  assert (Hn : n - cycle_base = 146097 * q + r)
    by (unfold q, r; apply Z.div_mod; lia).
  assert (Hr : 0 <= r < 146097) by (unfold r; apply Z.mod_pos_bound; lia).
  pose proof (cycle_yearsdays_range r Hr) as [Hy Hd].
  cbn [fst snd].
  replace (2000 + 400 * q + fst (cycle_yearsdays r))
    with (fst (cycle_yearsdays r) + 400 * (q + 5)) by ring.
  split; [now rewrite year_length_periodic|].
  rewrite (year_step_shift (q + 5) (cycle_yearsdays r)).
  destruct (Z.eq_dec r 146096) as [Hlast|Hnot].
  - replace (n + 1 - cycle_base) with (0 + (q + 1) * 146097) by lia.
    rewrite Z.div_add, Z.mod_add by lia.
    rewrite Hlast, cycle_yearsdays_last.
    change (0 / 146097) with 0. change (0 mod 146097) with 0.
    cbn [cycle_yearsdays Z.leb Z.compare fst snd]. f_equal. ring.
  - replace (n + 1 - cycle_base) with (r + 1 + q * 146097) by lia.
    rewrite Z.div_add, Z.mod_add by lia.
    rewrite Z.div_small, Z.mod_small by lia.
    rewrite cycle_yearsdays_succ by lia. f_equal. ring.
Qed.

Lemma year_checked :
  forallb (year_day_ok false) (zrange 0 365) &&
  forallb (year_day_ok true) (zrange 0 366) = true.
Proof. vm_compute. reflexivity. Qed.

Lemma in_zrange (n : nat) (start i : Z) :
  start <= i < start + Z.of_nat n -> In i (zrange start n).
Proof.
  revert start. induction n as [|n IH]; intros start Hi.
  - lia.
  - cbn [zrange]. destruct (Z.eq_dec start i) as [->|Hne].
    + now left.
    + right. apply IH. lia.
Qed.

Lemma year_day_ok_all (leap : bool) (yd : Z) :
  0 <= yd < (if leap then 366 else 365) -> year_day_ok leap yd = true.
Proof.
  intros Hyd. pose proof year_checked as H.
  apply andb_prop in H as [Hc Hl]. rewrite forallb_forall in Hc, Hl.
  destruct leap; [apply Hl|apply Hc]; apply in_zrange; lia.
Qed.

Lemma pair_eqb_eq (a b : Z * Z) : pair_eqb a b = true -> a = b.
Proof.
  destruct a, b. unfold pair_eqb. cbn [fst snd]. intros H.
  apply andb_prop in H as [H1 H2]. apply Z.eqb_eq in H1, H2. now subst.
Qed.

(** Every day count lands on a valid date, and the next count lands on the
    next calendar day. *)
Lemma date_of_days_succ (n : Z) :
  Gregorian.valid (date_of_days n) = true /\
  date_of_days (n + 1) = Gregorian.tomorrow (date_of_days n).
Proof.
  unfold date_of_days.
  destruct (days_to_yearsdays_succ n) as [Hyd Hsucc]. rewrite Hsucc.
  destruct (days_to_yearsdays n) as [y yd]. cbn [fst snd] in Hyd.
  unfold year_step. cbn [fst snd].
  unfold Gregorian.year_length in *.
  pose proof (year_day_ok_all (Gregorian.leap_year y) yd Hyd) as Hok.
  unfold year_day_ok in Hok.
  destruct (yd + 1 <? (if Gregorian.leap_year y then 366 else 365));
    cbv iota beta; rewrite !is_leapyear_leap_year;
    destruct (month_and_day (days_per_month_table (Gregorian.leap_year y))
                            1 yd) as [m d] eqn:Hmd;
    cbn [fst snd] in Hok;
    apply andb_prop in Hok as [Hvalid Hnext];
    unfold Gregorian.valid, Gregorian.tomorrow, Gregorian.month_length;
    cbn [year month day]; (split; [exact Hvalid|]).
  - apply andb_prop in Hnext as [Heq Hin]. apply pair_eqb_eq in Heq.
    rewrite Heq. unfold month_step. cbn [fst snd].
    destruct (d <? Gregorian.days_in_month (Gregorian.leap_year y) m);
      [reflexivity|].
    cbn [orb] in Hin. now rewrite Hin.
  - apply andb_prop in Hnext as [Hm Hd]. apply Z.eqb_eq in Hm, Hd. subst.
    replace (month_and_day
               (days_per_month_table (Gregorian.leap_year (y + 1))) 1 0)
      with (1, 1) by (destruct (Gregorian.leap_year (y + 1)); reflexivity).
    destruct (Gregorian.leap_year y); reflexivity.
Qed.

Lemma date_of_add_day (ts : Timestamp) :
  date_of (ts + Timedelta_days 1) = Gregorian.tomorrow (date_of ts).
Proof.
  unfold date_of, Timedelta_days.
  rewrite Z.div_add by (unfold ns_per_day; lia).
  apply date_of_days_succ.
Qed.

Lemma date_of_valid (ts : Timestamp) : Gregorian.valid (date_of ts) = true.
Proof. unfold date_of. apply date_of_days_succ. Qed.

Lemma get_day_of_year_ordinal (d : date) :
  Gregorian.valid d = true -> get_day_of_year d = Gregorian.ordinal d.
Proof.
  destruct d as [y m dd].
  unfold Gregorian.valid, get_day_of_year, Gregorian.ordinal,
    Gregorian.days_before_month.
  cbn [year month day]. intros Hv.
  apply andb_prop in Hv as [Hv _]. apply andb_prop in Hv as [Hv _].
  apply andb_prop in Hv as [Hlo Hhi].
  apply Z.leb_le in Hlo, Hhi.
  rewrite is_leapyear_leap_year.
  assert (Hm : m = 1 \/ m = 2 \/ m = 3 \/ m = 4 \/ m = 5 \/ m = 6 \/
               m = 7 \/ m = 8 \/ m = 9 \/ m = 10 \/ m = 11 \/ m = 12) by lia.
  unfold Gregorian.month_length.
  repeat (destruct Hm as [->|Hm];
          [destruct (Gregorian.leap_year y); reflexivity|]).
  subst m. destruct (Gregorian.leap_year y); reflexivity.
Qed.

Lemma dayofyear_add_day (ts : Timestamp) :
  dayofyear (ts + Timedelta_days 1) =
  Gregorian.ordinal (Gregorian.tomorrow (date_of ts)).
Proof.
  unfold dayofyear. rewrite get_day_of_year_ordinal by apply date_of_valid.
  now rewrite date_of_add_day.
Qed.

Lemma ordinal_after_december_31 (d : date) :
  Gregorian.is_december_31 d = true ->
  Gregorian.ordinal (Gregorian.tomorrow d) = 1.
Proof.
  destruct d as [y m dd]. unfold Gregorian.is_december_31.
  cbn [month day]. intros H. apply andb_prop in H as [Hm Hd].
  apply Z.eqb_eq in Hm, Hd. subst. reflexivity.
Qed.

Lemma yesterday_tomorrow (d : date) :
  Gregorian.valid d = true -> Gregorian.yesterday (Gregorian.tomorrow d) = d.
Proof.
  destruct d as [y m dd].
  unfold Gregorian.valid, Gregorian.tomorrow, Gregorian.yesterday.
  cbn [year month day]. intros Hv.
  apply andb_prop in Hv as [Hv Hd2]. apply andb_prop in Hv as [Hv Hd1].
  apply andb_prop in Hv as [Hlo Hhi].
  apply Z.leb_le in Hlo, Hhi, Hd1, Hd2.
  destruct (Z.ltb_spec dd (Gregorian.month_length y m)) as [Hlt|Hge];
    [|destruct (Z.ltb_spec m 12) as [Hm12|Hm12]]; cbn [year month day].
  - destruct (Z.ltb_spec 1 (dd + 1)); [|lia]. f_equal. lia.
  - destruct (Z.ltb_spec 1 1); [lia|].
    destruct (Z.ltb_spec 1 (m + 1)); [|lia].
    replace (m + 1 - 1) with m by lia. f_equal. lia.
  - destruct (Z.ltb_spec 1 1); [lia|].
    assert (m = 12) by lia. subst m.
    replace (y + 1 - 1) with y by lia.
    unfold Gregorian.month_length in *. cbn in Hd2, Hge. f_equal. lia.
Qed.

Lemma date_of_days_after_epoch (k : nat) :
  date_of_days (Z.of_nat k) = Nat.iter k Gregorian.tomorrow Gregorian.epoch.
Proof.
  induction k as [|k IH]; [reflexivity|].
  rewrite Nat2Z.inj_succ, <- Z.add_1_r.
  rewrite (proj2 (date_of_days_succ (Z.of_nat k))), IH. reflexivity.
Qed.

Lemma date_of_days_before_epoch (k : nat) :
  date_of_days (- Z.of_nat k) =
  Nat.iter k Gregorian.yesterday Gregorian.epoch.
Proof.
  induction k as [|k IH]; [reflexivity|].
  rewrite Nat.iter_succ, <- IH.
  destruct (date_of_days_succ (- Z.of_nat (S k))) as [Hvalid Hnext].
  replace (- Z.of_nat (S k) + 1) with (- Z.of_nat k) in Hnext by lia.
  rewrite Hnext. now rewrite yesterday_tomorrow.
Qed.

(** The date routines give the date found by walking the calendar from
    1 January 1970. *)
Lemma date_of_days_civil (n : Z) :
  date_of_days n = Gregorian.date_of_day_number n.
Proof.
  unfold Gregorian.date_of_day_number.
  destruct (Z.leb_spec 0 n).
  - rewrite <- date_of_days_after_epoch. f_equal. lia.
  - rewrite <- date_of_days_before_epoch. f_equal. lia.
Qed.

Lemma date_of_civil_date (ts : Timestamp) :
  date_of ts = Gregorian.civil_date ts.
Proof. unfold date_of, Gregorian.civil_date. apply date_of_days_civil. Qed.

Lemma date_of_known_dates :
  date_of 0 = mkdate 1970 1 1 /\
  date_of (-1) = mkdate 1969 12 31 /\
  date_of (11016 * ns_per_day) = mkdate 2000 2 29 /\
  date_of (19722 * ns_per_day + 86399999999999) = mkdate 2023 12 31 /\
  date_of (19723 * ns_per_day) = mkdate 2024 1 1.
Proof. repeat split; reflexivity. Qed.

Lemma dayofyear_add_day_civil (ts : Timestamp) :
  dayofyear (ts + Timedelta_days 1) =
  Gregorian.ordinal (Gregorian.tomorrow (Gregorian.civil_date ts)).
Proof. rewrite dayofyear_add_day. now rewrite date_of_civil_date. Qed.

End CalendarFacts.

(* ===================================================================== *)
(** ** Properties of the table operations                                 *)
(* ===================================================================== *)

Module FrameFacts.

Import Py Calendar Frame Vocabulary.

Lemma iloc_from_end {A} (t : list A) (k : Z) :
  1 <= k <= len t ->
  exists r, nth_error t (List.length t - Z.to_nat k) = Some r /\
            iloc t (- k) = Ok r.
Proof.
  intros Hk. unfold iloc, len in *.
  destruct (Z.ltb_spec (- k) 0) as [_|]; [|lia].
  destruct (Z.leb_spec 0 (- k + Z.of_nat (List.length t))); [|lia].
  destruct (Z.ltb_spec (- k + Z.of_nat (List.length t))
                       (Z.of_nat (List.length t))); [|lia].
  cbn [andb].
  replace (Z.to_nat (- k + Z.of_nat (List.length t)))
    with (List.length t - Z.to_nat k)%nat by lia.
  destruct (nth_error t (List.length t - Z.to_nat k)) as [r|] eqn:E.
  - now exists r.
  - apply nth_error_None in E. lia.
Qed.

Lemma iloc_beyond {A} (t : list A) (k : Z) :
  len t < k -> iloc t (- k) = Raise IndexError.
Proof.
  intros Hk. unfold iloc, len in *.
  destruct (Z.ltb_spec (- k) 0) as [_|]; [|lia].
  destruct (Z.leb_spec 0 (- k + Z.of_nat (List.length t))); [lia|].
  reflexivity.
Qed.

Lemma rolling_mean_length (w : nat) (s : list float) :
  List.length (rolling_mean w s) = List.length s.
Proof. unfold rolling_mean. now rewrite length_map, length_seq. Qed.

Lemma rolling_mean_nth (w : nat) (s : list float) (i : nat) :
  (i < List.length s)%nat ->
  nth_error (rolling_mean w s) i =
  Some (if (i + 1 <? w)%nat then NaN
        else window_mean (firstn w (skipn (i + 1 - w) s))).
Proof.
  intros Hi. unfold rolling_mean.
  rewrite nth_error_map, nth_error_seq.
  destruct (Nat.ltb_spec i (List.length s)); [reflexivity|lia].
Qed.

Lemma rolling_mean_last (w : nat) (s : list float) :
  (1 <= List.length s)%nat ->
  iloc (rolling_mean w s) (-1) =
  Ok (if (List.length s <? w)%nat then NaN
      else window_mean (firstn w (skipn (List.length s - w) s))).
Proof.
  intros Hs.
  destruct (iloc_from_end (rolling_mean w s) 1) as (m & Hn & Hi).
  { unfold len. rewrite rolling_mean_length. lia. }
  change (- (1)) with (-1) in Hi. rewrite Hi. f_equal.
  change (Z.to_nat 1) with 1%nat in Hn.
  rewrite rolling_mean_length in Hn.
  rewrite rolling_mean_nth in Hn by lia.
  replace (List.length s - 1 + 1)%nat with (List.length s) in Hn by lia.
  now injection Hn.
Qed.

Lemma last_row_iloc (t : DailyTable) :
  match last_row t with
  | Some r => t <> [] /\ iloc t (-1) = Ok r
  | None => t = [] /\ iloc t (-1) = Raise IndexError
  end.
Proof.
  unfold last_row. destruct t as [|a t].
  - now split.
  - destruct (iloc_from_end (a :: t) 1) as (r & Hn & Hi).
    { unfold len. cbn [List.length]. lia. }
    change (Z.to_nat 1) with 1%nat in Hn. rewrite Hn.
    split; [discriminate|exact Hi].
Qed.

(** Each lag expression of the assembly evaluates to [lag_value]. *)
Lemma lag_eval (k : nat) (t : DailyTable) (last : DailyRow) :
  (1 <= k)%nat ->
  (if Z.of_nat k <=? len t
   then let! r := iloc t (- Z.of_nat k) in Ok (pm25 r)
   else Ok (pm25 last)) = Ok (lag_value k t last).
Proof.
  intros Hk. unfold lag_value, kth_from_last.
  destruct (Nat.leb_spec 1 k) as [_|]; [|lia]. cbn [andb].
  destruct (Z.leb_spec (Z.of_nat k) (len t)) as [Hle|Hgt].
  - destruct (iloc_from_end t (Z.of_nat k)) as (r & Hn & Hi); [lia|].
    rewrite Hi. cbn [bind Ok]. rewrite Nat2Z.id in Hn.
    unfold len in Hle.
    destruct (Nat.leb_spec k (List.length t)); [|lia].
    now rewrite Hn.
  - unfold len in Hgt.
    destruct (Nat.leb_spec k (List.length t)); [lia|]. reflexivity.
Qed.

(** The assembly succeeds on a non-empty table whose last timestamp can be
    moved one day ahead, and this is the mapping it builds. *)
Lemma assemble_ok (t : DailyTable) (last : DailyRow) :
  last_row t = Some last ->
  next_day_representable last ->
  assemble t = Ok (X_pred_of t last).
Proof.
  intros Hlast Hrep.
  pose proof (last_row_iloc t) as H. rewrite Hlast in H.
  destruct H as [Hne Hi].
  unfold assemble. rewrite Hi. cbn [bind Ok].
  unfold assemble_X_pred.
  change 2 with (Z.of_nat 2). change 3 with (Z.of_nat 3).
  change 7 with (Z.of_nat 7).
  change (-2) with (- Z.of_nat 2). change (-3) with (- Z.of_nat 3).
  change (-7) with (- Z.of_nat 7).
  rewrite !lag_eval by lia. cbn [bind Ok].
  rewrite rolling_mean_last
    by (rewrite length_map; destruct t; [congruence|cbn; lia]).
  cbn [bind Ok].
  unfold add, to_datetime, next_day_representable, Timedelta_days in *.
  destruct (Z.leb_spec (timestamp last + 1 * ns_per_day) int64_max); [|lia].
  cbn [bind Ok]. rewrite length_map. reflexivity.
Qed.

(** Conversely the assembly returns only in that situation. *)
Lemma assemble_inv (t : DailyTable) (X : dict) :
  assemble t = Ok X ->
  exists last, last_row t = Some last /\ next_day_representable last /\
               X = X_pred_of t last.
Proof.
  intros HX. pose proof (last_row_iloc t) as H.
  destruct (last_row t) as [last|] eqn:Hlast.
  - exists last. split; [reflexivity|].
    destruct (Z.le_gt_cases (timestamp last + ns_per_day) int64_max)
      as [Hrep|Hover].
    + split; [exact Hrep|].
      rewrite (assemble_ok t last Hlast Hrep) in HX. now injection HX.
    + exfalso. destruct H as [Hne Hi].
      unfold assemble in HX. rewrite Hi in HX. cbn [bind Ok] in HX.
      unfold assemble_X_pred in HX.
      change 2 with (Z.of_nat 2) in HX. change 3 with (Z.of_nat 3) in HX.
      change 7 with (Z.of_nat 7) in HX.
      change (-2) with (- Z.of_nat 2) in HX.
      change (-3) with (- Z.of_nat 3) in HX.
      change (-7) with (- Z.of_nat 7) in HX.
      rewrite !lag_eval in HX by lia. cbn [bind Ok] in HX.
      rewrite rolling_mean_last in HX
        by (rewrite length_map; destruct t; [congruence|cbn; lia]).
      cbn [bind Ok] in HX.
      unfold add, to_datetime, Timedelta_days in HX.
      destruct (Z.leb_spec (timestamp last + 1 * ns_per_day) int64_max);
        [lia|]. discriminate HX.
  - destruct H as [_ Hi]. unfold assemble in HX. rewrite Hi in HX.
    discriminate HX.
Qed.

Lemma in_firstn {A} (n : nat) (l : list A) (x : A) :
  In x (firstn n l) -> In x l.
Proof.
  intros H. rewrite <- (firstn_skipn n l). apply in_or_app. now left.
Qed.

Lemma in_skipn {A} (n : nat) (l : list A) (x : A) :
  In x (skipn n l) -> In x l.
Proof.
  intros H. rewrite <- (firstn_skipn n l). apply in_or_app. now right.
Qed.

Lemma kth_from_last_in (k : nat) (t : DailyTable) (r : DailyRow) :
  kth_from_last k t = Some r -> In r t.
Proof.
  unfold kth_from_last. destruct (_ && _)%bool; [|discriminate].
  apply nth_error_In.
Qed.

Lemma last_row_in (t : DailyTable) (r : DailyRow) :
  last_row t = Some r -> In r t.
Proof. apply nth_error_In. Qed.

(** With a constant pm25 column every lag is that constant. *)
Lemma lag_value_constant (k : nat) (t : DailyTable) (last : DailyRow)
      (V : float) :
  (forall r, In r t -> pm25 r = V) ->
  last_row t = Some last ->
  lag_value k t last = V.
Proof.
  intros Hall Hlast. unfold lag_value.
  destruct (kth_from_last k t) as [r|] eqn:E.
  - apply Hall. eapply kth_from_last_in; eassumption.
  - apply Hall. now apply last_row_in.
Qed.

Lemma window_mean_constant (V : float) :
  float_eq (window_mean [V; V; V]) V.
Proof.
  destruct V as [|q]; cbn; [exact I|].
  unfold Qeq, Qdiv, Qmult, Qplus, Qinv, inject_Z. cbn. destruct q as [a b].
  cbn. lia.
Qed.

Lemma three_of_constant (w : list float) (V : float) :
  List.length w = 3%nat -> (forall x, In x w -> x = V) -> w = [V; V; V].
Proof.
  intros Hlen Hall.
  destruct w as [|a [|b [|c [|]]]]; try discriminate.
  rewrite (Hall a), (Hall b), (Hall c); cbn; auto.
Qed.

(** With a constant pm25 column and at least three rows the trailing mean
    is that constant. *)
Lemma ma_3_value_constant (t : DailyTable) (V : float) :
  (forall r, In r t -> pm25 r = V) ->
  (3 <= List.length t)%nat ->
  float_eq (ma_3_value t) V.
Proof.
  intros Hall Hlen. unfold ma_3_value.
  destruct (Nat.ltb_spec (List.length t) 3); [lia|].
  rewrite (three_of_constant _ V).
  - apply window_mean_constant.
  - rewrite length_firstn, length_skipn, length_map. lia.
  - intros x Hx. apply in_firstn, in_skipn, in_map_iff in Hx.
    destruct Hx as (r & <- & Hr). now apply Hall.
Qed.

Lemma lag_value_short (k : nat) (t : DailyTable) (last : DailyRow) :
  (List.length t < k)%nat -> lag_value k t last = pm25 last.
Proof.
  intros Hk. unfold lag_value, kth_from_last.
  destruct (Nat.leb_spec k (List.length t)); [lia|].
  now rewrite andb_false_r.
Qed.

Lemma lag_value_long (k : nat) (t : DailyTable) (last : DailyRow) :
  (1 <= k <= List.length t)%nat ->
  exists r, kth_from_last k t = Some r /\ lag_value k t last = pm25 r.
Proof.
  intros Hk. unfold lag_value, kth_from_last.
  destruct (Nat.leb_spec 1 k); [|lia].
  destruct (Nat.leb_spec k (List.length t)); [|lia]. cbn [andb].
  destruct (nth_error t (List.length t - k)) as [r|] eqn:E.
  - now exists r.
  - apply nth_error_None in E. lia.
Qed.

(** Counting from the end with the last row as number 1 is one more than
    the number of rows in between. *)
Lemma kth_from_last_rows_before_last (k : nat) (t : DailyTable) :
  kth_from_last (S k) t = rows_before_last k t.
Proof.
  unfold kth_from_last, rows_before_last.
  replace (k + 1)%nat with (S k) by lia.
  change (Nat.leb 1 (S k)) with true. cbn [andb].
  destruct (Nat.leb (S k) (List.length t)); [|reflexivity].
  f_equal. lia.
Qed.

End FrameFacts.

(* ===================================================================== *)
(** ** Properties of the fetchers and of the handler                      *)
(* ===================================================================== *)

Module AppFacts.

Import Py Calendar Frame Effects Vocabulary App.

Lemma appended_app (h l : log) : appended h (h ++ l)%list = l.
Proof.
  unfold appended. induction h as [|e h IH]; [reflexivity|exact IH].
Qed.

Section WithServices.

Variable sv : Services.

(** The coordinate lookup sends exactly one request, to the geocoder, and
    may follow it with an error message. *)
Lemma get_city_coordinates_log (city : string) (h : log) :
  exists tail,
    snd (get_city_coordinates sv city h) =
      (h ++ HttpGet (GeocodingSearch city) :: tail)%list /\
    filter is_data_request tail = [].
Proof.
  unfold get_city_coordinates, attempt, get_json.
  destruct (requests_get_json sv h (GeocodingSearch city)) as [e|resp].
  - eexists. split; [|shelve].
    unfold mbind, st_error, emit, ret. cbn. rewrite <- app_assoc. reflexivity.
    Unshelve. reflexivity.
  - exists []. split; [|reflexivity].
    unfold mbind, lift, ret.
    repeat (match goal with
            | |- context [match ?x with _ => _ end] =>
                lazymatch x with
                | context [match _ with _ => _ end] => fail
                | _ => destruct x eqn:?
                end
            end; cbn [fst snd negb]); reflexivity.
Qed.

End WithServices.

Lemma select_columns_present (X : dict) (cols : list string) :
  all_present X cols = true ->
  select_columns X cols = Ok (restrict X cols) /\
  keys (restrict X cols) = cols.
Proof.
  unfold all_present, has_key.
  induction cols as [|c cols IH]; intros Hall; [now split|].
  cbn [forallb] in Hall. apply andb_prop in Hall as [Hc Hall].
  destruct (IH Hall) as [Hsel Hkeys].
  cbn [select_columns restrict flat_map].
  destruct (assoc c X) as [v|]; [|discriminate].
  fold (restrict X cols). rewrite Hsel. cbn [bind Ok app].
  split; [reflexivity|]. unfold keys in *. cbn [map fst]. now rewrite Hkeys.
Qed.

Lemma select_columns_missing (X : dict) (cols : list string) :
  all_present X cols = false ->
  exists c, In c cols /\ has_key c X = false /\
            select_columns X cols = Raise (KeyError c).
Proof.
  unfold all_present, has_key.
  induction cols as [|c cols IH]; intros Hall; [discriminate|].
  cbn [forallb] in Hall. cbn [select_columns].
  destruct (assoc c X) as [v|] eqn:Hc.
  - cbn [andb] in Hall. destruct (IH Hall) as (c' & Hin & Hmiss & Hsel).
    exists c'. rewrite Hsel. cbn [bind Raise].
    split; [now right|]. split; [exact Hmiss|reflexivity].
  - exists c. rewrite Hc. split; [now left|]. now split.
Qed.

Section Appending.

Variable sv : Services.
Variable P : event -> bool.

Lemma appends_only_ret {A} (a : A) : appends_only P (ret a).
Proof. intros h. exists []. now rewrite app_nil_r. Qed.

Lemma appends_only_lift {A} (r : result A) : appends_only P (lift r).
Proof. intros h. exists []. now rewrite app_nil_r. Qed.

Lemma appends_only_emit (ev : event) :
  P ev = true -> appends_only P (emit ev).
Proof. intros Hev h. exists [ev]. cbn. now rewrite Hev. Qed.

Lemma appends_only_get_json (u : url) :
  P (HttpGet u) = true -> appends_only P (get_json sv u).
Proof. intros Hev h. exists [HttpGet u]. cbn. now rewrite Hev. Qed.

Lemma appends_only_load_model :
  P LoadModel = true -> appends_only P (load_model sv).
Proof. intros Hev h. exists [LoadModel]. cbn. now rewrite Hev. Qed.

Lemma appends_only_attempt {A B}
      (body : M A) (handler : exn -> M B) (rest : A -> M B) :
  appends_only P body ->
  (forall e, appends_only P (handler e)) ->
  (forall a, appends_only P (rest a)) ->
  appends_only P (attempt body handler rest).
Proof.
  intros Hb Hh Hr h. unfold attempt.
  destruct (Hb h) as (l1 & E1 & P1).
  destruct (body h) as [[e|a] h1]; cbn [snd] in E1; subst h1.
  - destruct (Hh e (h ++ l1)%list) as (l2 & E2 & P2).
    exists (l1 ++ l2)%list. rewrite E2, app_assoc, forallb_app, P1, P2.
    now split.
  - destruct (Hr a (h ++ l1)%list) as (l2 & E2 & P2).
    exists (l1 ++ l2)%list. rewrite E2, app_assoc, forallb_app, P1, P2.
    now split.
Qed.

Lemma appends_only_bind {A B} (c : M A) (k : A -> M B) :
  appends_only P c ->
  (forall a, appends_only P (k a)) ->
  appends_only P (mbind c k).
Proof.
  intros Hc Hk h. unfold mbind.
  destruct (Hc h) as (l1 & E1 & P1).
  destruct (c h) as [[e|a] h1]; cbn [snd] in E1; subst h1.
  - exists l1. now split.
  - destruct (Hk a (h ++ l1)%list) as (l2 & E2 & P2).
    exists (l1 ++ l2)%list. rewrite E2, app_assoc, forallb_app, P1, P2.
    now split.
Qed.

End Appending.

Ltac appends_only_step :=
  lazymatch goal with
  | |- appends_only _ (ret _) => apply appends_only_ret
  | |- appends_only _ (lift _) => apply appends_only_lift
  | |- appends_only _ (emit _) => apply appends_only_emit; reflexivity
  | |- appends_only _ (get_json _ _) =>
      apply appends_only_get_json; reflexivity
  | |- appends_only _ (load_model _) =>
      apply appends_only_load_model; reflexivity
  | |- appends_only _ (attempt _ _ _) => apply appends_only_attempt
  | |- appends_only _ (mbind _ _) => apply appends_only_bind
  | |- appends_only _ (if ?b then _ else _) => destruct b
  | |- appends_only _ (let '(_, _) := ?p in _) => destruct p
  | |- forall _, _ => intro
  end.

Section Quiet.

Variable sv : Services.

(** Nothing in the coordinate lookup or in the fetchers calls the model. *)
Lemma get_city_coordinates_quiet (city : string) :
  appends_only not_prediction (get_city_coordinates sv city).
Proof.
  unfold get_city_coordinates, st_error. repeat appends_only_step.
Qed.

Lemma fetch_pm25_quiet (city start_date end_date : string) :
  appends_only not_prediction (fetch_pm25 sv city start_date end_date).
Proof.
  unfold fetch_pm25, st_error.
  apply appends_only_bind; [apply get_city_coordinates_quiet|].
  repeat appends_only_step.
Qed.

Lemma fetch_weather_quiet (city start_date end_date : string) :
  appends_only not_prediction (fetch_weather sv city start_date end_date).
Proof.
  unfold fetch_weather, st_error.
  apply appends_only_bind; [apply get_city_coordinates_quiet|].
  repeat appends_only_step.
Qed.

Lemma model_predict_appends (model : Model) (X : dict) :
  appends_only any_event (model_predict model X).
Proof. intros h. exists [ModelPredict X]. now split. Qed.

Lemma forecast_appends (city : string) (t : DailyTable) :
  appends_only any_event (forecast sv city t).
Proof.
  unfold forecast, st_warning, predict_step.
  repeat first [apply model_predict_appends | appends_only_step].
Qed.

End Quiet.

Lemma no_prediction_among (l : log) :
  forallb not_prediction l = true -> existsb is_prediction l = false.
Proof.
  induction l as [|ev l IH]; [reflexivity|].
  cbn [forallb existsb]. unfold not_prediction at 1.
  intros H. apply andb_prop in H as [Hev Hl].
  apply negb_true_iff in Hev. rewrite Hev. now apply IH.
Qed.

Lemma existsb_prediction_app (l1 l2 : log) :
  forallb not_prediction l1 = true ->
  existsb is_prediction (l1 ++ l2) = existsb is_prediction l2.
Proof.
  intros H. rewrite existsb_app. now rewrite no_prediction_among.
Qed.

Section Handler.

Variable sv : Services.

Lemma forecast_short (city : string) (t : DailyTable) (h : log) :
  len t < 10 ->
  forecast sv city t h =
    (Ok tt,
     (h ++ [StWarning
              "Not enough daily rows after feature creation for stable prediction."])%list).
Proof.
  intros Hlen. unfold forecast.
  destruct (Z.ltb_spec (len t) 10); [reflexivity|lia].
Qed.

Lemma forecast_predicts_only_with_ten_rows
      (city : string) (t : DailyTable) (h : log) :
  existsb is_prediction (appended h (snd (forecast sv city t h))) = true ->
  10 <= len t.
Proof.
  intros Hpred. destruct (Z.lt_ge_cases (len t) 10) as [Hlt|Hge]; [|exact Hge].
  rewrite (forecast_short city t h Hlt) in Hpred. cbn [snd] in Hpred.
  rewrite appended_app in Hpred. discriminate Hpred.
Qed.

(** A request that reaches the model went through a daily table of at
    least ten rows. *)
Lemma on_button_predicts_only_with_ten_rows
      (city start_date end_date : string) (h : log) :
  existsb is_prediction
          (appended h (snd (on_button sv city start_date end_date h))) = true ->
  exists pm_df met_df t,
    make_daily_features sv pm_df met_df = Ok t /\ 10 <= len t.
Proof.
  unfold on_button, mbind.
  destruct (fetch_pm25_quiet sv city start_date end_date h) as (l1 & E1 & P1).
  destruct (fetch_pm25 sv city start_date end_date h) as [[e|pm_df] h1];
    cbn [snd] in E1; subst h1.
  { cbn [snd]. rewrite appended_app, no_prediction_among by exact P1.
    discriminate. }
  destruct (empty pm_df).
  { unfold st_error, emit. cbn [snd].
    rewrite <- app_assoc, appended_app, existsb_prediction_app by exact P1.
    discriminate. }
  destruct (fetch_weather_quiet sv city start_date end_date (h ++ l1)%list)
    as (l2 & E2 & P2).
  destruct (fetch_weather sv city start_date end_date (h ++ l1)%list)
    as [[e|met_df] h2]; cbn [snd] in E2; subst h2.
  { cbn [snd].
    rewrite <- app_assoc, appended_app, existsb_prediction_app by exact P1.
    rewrite no_prediction_among by exact P2. discriminate. }
  destruct (empty met_df).
  { unfold st_error, emit. cbn [snd].
    rewrite <- !app_assoc, appended_app, !existsb_prediction_app
      by assumption.
    discriminate. }
  unfold lift.
  destruct (make_daily_features sv pm_df met_df) as [e|t] eqn:Hfeat.
  { cbn [snd].
    rewrite <- app_assoc, appended_app, existsb_prediction_app by exact P1.
    rewrite no_prediction_among by exact P2. discriminate. }
  unfold reset_index.
  destruct (forecast_appends sv city t ((h ++ l1) ++ l2)%list)
    as (l3 & E3 & _).
  intros Hpred. exists pm_df, met_df, t. split; [exact Hfeat|].
  apply (forecast_predicts_only_with_ten_rows city t ((h ++ l1) ++ l2)%list).
  rewrite E3 in *. rewrite appended_app.
  rewrite <- !app_assoc, appended_app, !existsb_prediction_app in Hpred
    by assumption.
  exact Hpred.
Qed.

End Handler.

End AppFacts.

(* ===================================================================== *)
(** ** Forecast assembly                                                  *)
(* ===================================================================== *)

Import Py Calendar Frame Effects Vocabulary Scenarios App.
Import CalendarFacts FrameFacts AppFacts.

(** C2, as stated, fails.  On ten days with pm25 = 0, ..., 9 the row that
    lies seven rows before the last one holds 2, while the assembly stores
    3 under [pm25_lag_7]. *)
Lemma lag_7_differs_from_seven_rows_before_last :
  reaches_assembly ten_days /\
  exists X,
    assemble ten_days = Ok X /\
    assoc "pm25_lag_7" X = Some (VFloat (Num 3)) /\
    option_map pm25 (rows_before_last 7 ten_days) = Some (Num 2) /\
    ~ float_eq (Num 3) (Num 2).
Proof.
  split; [vm_compute; discriminate|].
  eexists. split; [vm_compute; reflexivity|].
  split; [reflexivity|]. split; [reflexivity|].
  cbn. unfold Qeq. cbn. lia.
Qed.

(** C2, amended.  For every daily table with at least 7 rows whose last
    timestamp can be moved one day ahead, the assembly returns and its
    [pm25_lag_7] is the pm25 of the seventh row counted from the end with
    the last row as the first, that is, of the row six rows before the last
    row. *)
Theorem pm25_lag_7_is_seventh_from_last
        (t : DailyTable) (last : DailyRow) :
  7 <= len t ->
  last_row t = Some last ->
  next_day_representable last ->
  exists X r,
    assemble t = Ok X /\
    kth_from_last 7 t = Some r /\
    rows_before_last 6 t = Some r /\
    assoc "pm25_lag_7" X = Some (VFloat (pm25 r)).
Proof.
  intros Hlen Hlast Hrep.
  destruct (lag_value_long 7 t last) as (r & Hk & Hv);
    [unfold len in Hlen; lia|].
  exists (X_pred_of t last), r.
  split; [now apply assemble_ok|]. split; [exact Hk|].
  split; [now rewrite <- kth_from_last_rows_before_last|].
  cbn. now rewrite Hv.
Qed.

Lemma pm25_lag_7_is_seventh_from_last_witness :
  exists X r,
    assemble ten_days = Ok X /\
    kth_from_last 7 ten_days = Some r /\
    rows_before_last 6 ten_days = Some r /\
    assoc "pm25_lag_7" X = Some (VFloat (pm25 r)).
Proof.
  apply (pm25_lag_7_is_seventh_from_last ten_days (january_row 9)).
  - vm_compute. discriminate.
  - reflexivity.
  - vm_compute. discriminate.
Defined.

(** C7.  For every daily table with a last row whose timestamp can be moved
    one day ahead, the assembly returns, and for each k in 2, 3, 7: when
    the table has fewer than k rows, [pm25_lag_k] is the last row's pm25. *)
Theorem short_table_lags_fall_back_to_last_row
        (t : DailyTable) (last : DailyRow) :
  last_row t = Some last ->
  next_day_representable last ->
  exists X,
    assemble t = Ok X /\
    (len t < 2 -> assoc "pm25_lag_2" X = Some (VFloat (pm25 last))) /\
    (len t < 3 -> assoc "pm25_lag_3" X = Some (VFloat (pm25 last))) /\
    (len t < 7 -> assoc "pm25_lag_7" X = Some (VFloat (pm25 last))).
Proof.
  intros Hlast Hrep. exists (X_pred_of t last).
  split; [now apply assemble_ok|].
  unfold len.
  repeat split; intros Hk; cbn; rewrite lag_value_short by lia; reflexivity.
Qed.

Lemma short_table_lags_fall_back_to_last_row_witness :
  exists X,
    assemble one_day = Ok X /\
    (len one_day < 2 ->
     assoc "pm25_lag_2" X = Some (VFloat (pm25 (january_row 0)))) /\
    (len one_day < 3 ->
     assoc "pm25_lag_3" X = Some (VFloat (pm25 (january_row 0)))) /\
    (len one_day < 7 ->
     assoc "pm25_lag_7" X = Some (VFloat (pm25 (january_row 0)))).
Proof.
  apply (short_table_lags_fall_back_to_last_row one_day (january_row 0)).
  - reflexivity.
  - vm_compute. discriminate.
Defined.

(** C6.  For every daily table with a last row whose timestamp can be moved
    one day ahead, the assembly returns and its [dayofyear] is the ordinal
    day of the year of the calendar day after the civil date of the last
    row's timestamp, that date being the one reached by walking the
    calendar from 1 January 1970; when it is a December 31 the value
    is 1. *)
Theorem dayofyear_is_ordinal_of_next_calendar_day
        (t : DailyTable) (last : DailyRow) :
  last_row t = Some last ->
  next_day_representable last ->
  exists X,
    assemble t = Ok X /\
    assoc "dayofyear" X =
      Some (VInt (Gregorian.ordinal
                    (Gregorian.tomorrow
                       (Gregorian.civil_date (timestamp last))))) /\
    (Gregorian.is_december_31 (Gregorian.civil_date (timestamp last)) = true ->
     assoc "dayofyear" X = Some (VInt 1)).
Proof.
  intros Hlast Hrep. exists (X_pred_of t last).
  split; [now apply assemble_ok|].
  assert (H : assoc "dayofyear" (X_pred_of t last) =
              Some (VInt (Gregorian.ordinal
                            (Gregorian.tomorrow
                               (Gregorian.civil_date (timestamp last)))))).
  { cbn. now rewrite dayofyear_add_day_civil. }
  split; [exact H|].
  intros Hdec. rewrite H. now rewrite ordinal_after_december_31.
Qed.

Lemma dayofyear_is_ordinal_of_next_calendar_day_witness :
  Gregorian.civil_date (timestamp new_years_eve_row) = mkdate 2023 12 31 /\
  exists X,
    assemble constant_days = Ok X /\
    assoc "dayofyear" X = Some (VInt 1).
Proof.
  split; [vm_compute; reflexivity|].
  destruct (dayofyear_is_ordinal_of_next_calendar_day
              constant_days new_years_eve_row)
    as (X & HX & _ & Hdec).
  - reflexivity.
  - vm_compute. discriminate.
  - exists X. split; [exact HX|]. apply Hdec. vm_compute. reflexivity.
Defined.

(** C9.  For every daily table of at least 10 rows whose rows all have the
    same pm25 value V (and whose last timestamp can be moved one day
    ahead), the assembled row has exactly the nine labels, every lag equal
    to V, a moving average equal to V, the last row's weather values, and
    the day of the year of the calendar day after the civil date of the
    last row's timestamp. *)
Theorem constant_series_forecast_input
        (t : DailyTable) (last : DailyRow) (V : float) :
  reaches_assembly t ->
  (forall r, In r t -> pm25 r = V) ->
  last_row t = Some last ->
  next_day_representable last ->
  exists X ma,
    assemble t = Ok X /\
    keys X = X_pred_keys /\
    assoc "pm25_lag_1" X = Some (VFloat V) /\
    assoc "pm25_lag_2" X = Some (VFloat V) /\
    assoc "pm25_lag_3" X = Some (VFloat V) /\
    assoc "pm25_lag_7" X = Some (VFloat V) /\
    assoc "pm25_ma_3" X = Some (VFloat ma) /\ float_eq ma V /\
    assoc "temperature" X = Some (VFloat (temperature last)) /\
    assoc "relativehumidity" X = Some (VFloat (relativehumidity last)) /\
    assoc "windspeed" X = Some (VFloat (windspeed last)) /\
    assoc "dayofyear" X =
      Some (VInt (Gregorian.ordinal
                    (Gregorian.tomorrow
                       (Gregorian.civil_date (timestamp last))))).
Proof.
  intros Hlen Hall Hlast Hrep.
  exists (X_pred_of t last), (ma_3_value t).
  split; [now apply assemble_ok|]. split; [reflexivity|].
  assert (Hlast_V : pm25 last = V) by (apply Hall; now apply last_row_in).
  cbn. rewrite !(lag_value_constant _ t last V Hall Hlast), Hlast_V.
  repeat (split; [reflexivity|]).
  split; [apply ma_3_value_constant; [exact Hall|]|].
  - unfold reaches_assembly, len in Hlen. lia.
  - repeat (split; [reflexivity|]). now rewrite dayofyear_add_day_civil.
Qed.

Lemma constant_series_forecast_input_witness :
  Gregorian.civil_date (timestamp new_years_eve_row) = mkdate 2023 12 31 /\
  exists X ma,
    assemble constant_days = Ok X /\
    keys X = X_pred_keys /\
    assoc "pm25_lag_1" X = Some (VFloat (Num 42)) /\
    assoc "pm25_lag_2" X = Some (VFloat (Num 42)) /\
    assoc "pm25_lag_3" X = Some (VFloat (Num 42)) /\
    assoc "pm25_lag_7" X = Some (VFloat (Num 42)) /\
    assoc "pm25_ma_3" X = Some (VFloat ma) /\ float_eq ma (Num 42) /\
    assoc "temperature" X = Some (VFloat (Num 20)) /\
    assoc "relativehumidity" X = Some (VFloat (Num 50)) /\
    assoc "windspeed" X = Some (VFloat (Num 3)) /\
    assoc "dayofyear" X = Some (VInt 1).
Proof.
  split; [vm_compute; reflexivity|].
  destruct (constant_series_forecast_input
              constant_days new_years_eve_row (Num 42))
    as (X & ma & HX & Hkeys & H1 & H2 & H3 & H7 & Hma & Heq
        & Htemp & Hrh & Hws & Hdoy).
  - vm_compute. discriminate.
  - intros r Hr. cbn in Hr.
    repeat (destruct Hr as [<-|Hr]; [reflexivity|]). destruct Hr.
  - reflexivity.
  - vm_compute. discriminate.
  - exists X, ma. repeat (split; [assumption|]).
    rewrite Hdoy. vm_compute. reflexivity.
Defined.

(** C10.  Whatever the table, a mapping returned by the assembly has
    exactly the nine labels temperature, relativehumidity, windspeed,
    pm25_lag_1, pm25_lag_2, pm25_lag_3, pm25_lag_7, pm25_ma_3 and
    dayofyear, each once. *)
Theorem X_pred_has_exactly_nine_keys (t : DailyTable) (X : dict) :
  assemble t = Ok X ->
  keys X = X_pred_keys /\ NoDup (keys X) /\ List.length X = 9%nat.
Proof.
  intros HX. apply assemble_inv in HX as (last & _ & _ & ->).
  split; [reflexivity|]. split; [|reflexivity].
  cbn. repeat constructor; cbn; intuition discriminate.
Qed.

Lemma X_pred_has_exactly_nine_keys_witness :
  keys (X_pred_of ten_days (january_row 9)) = X_pred_keys /\
  NoDup (keys (X_pred_of ten_days (january_row 9))) /\
  List.length (X_pred_of ten_days (january_row 9)) = 9%nat.
Proof.
  apply (X_pred_has_exactly_nine_keys ten_days).
  vm_compute. reflexivity.
Defined.

(* ===================================================================== *)
(** ** Column selection and prediction                                    *)
(* ===================================================================== *)

(** C1, as stated, fails.  With a feature list that reverses the nine
    labels, and with one that keeps only two of them, the list differs from
    the assembled columns, yet the prediction step returns the model's
    answer: the model is handed the reordered, respectively the reduced,
    row. *)
Lemma mismatched_feature_list_still_predicts :
  exists X,
    assemble ten_days = Ok X /\
    keys X <> reversed_features /\
    keys X <> two_features /\
    predict_step constant_model reversed_features X [] =
      (Ok (Num 0), [ModelPredict (rev X)]) /\
    predict_step constant_model two_features X [] =
      (Ok (Num 0),
       [ModelPredict [("dayofyear", VInt 11);
                      ("temperature", VFloat (Num 20))]]).
Proof.
  eexists. split; [vm_compute; reflexivity|].
  repeat split; try discriminate.
Qed.

(** C1, amended.  The prediction step fails before the model is called
    exactly when the model's feature list names a label the assembled row
    lacks, and then with a [KeyError] for such a label.  When every listed
    label is a column of the row, whatever the order and coverage of the
    list, the model is called on the listed columns in the order of the
    list and its outcome is the outcome of the step. *)
Theorem predict_step_fails_only_on_missing_label
        (model : Model) (feature_cols : list string) (X : dict) (h : log) :
  (all_present X feature_cols = true ->
   keys (restrict X feature_cols) = feature_cols /\
   predict_step model feature_cols X h =
     (predict model (restrict X feature_cols),
      (h ++ [ModelPredict (restrict X feature_cols)])%list)) /\
  (all_present X feature_cols = false ->
   exists c,
     In c feature_cols /\ has_key c X = false /\
     predict_step model feature_cols X h = (Raise (KeyError c), h)).
Proof.
  split; intros Hall.
  - destruct (select_columns_present X feature_cols Hall) as [Hsel Hkeys].
    split; [exact Hkeys|].
    unfold predict_step, mbind, lift, model_predict. now rewrite Hsel.
  - destruct (select_columns_missing X feature_cols Hall)
      as (c & Hin & Hmiss & Hsel).
    exists c. split; [exact Hin|]. split; [exact Hmiss|].
    unfold predict_step, mbind, lift. now rewrite Hsel.
Qed.

Lemma predict_step_fails_only_on_missing_label_witness :
  (keys (restrict (X_pred_of ten_days (january_row 9)) two_features) =
     two_features /\
   predict_step constant_model two_features
                (X_pred_of ten_days (january_row 9)) [] =
     (predict constant_model
        (restrict (X_pred_of ten_days (january_row 9)) two_features),
      ([] ++ [ModelPredict
                (restrict (X_pred_of ten_days (january_row 9))
                          two_features)])%list)) /\
  (exists c,
     In c unknown_feature /\
     has_key c (X_pred_of ten_days (january_row 9)) = false /\
     predict_step constant_model unknown_feature
                  (X_pred_of ten_days (january_row 9)) [] =
       (Raise (KeyError c), [])).
Proof.
  split.
  - apply (predict_step_fails_only_on_missing_label
             constant_model two_features
             (X_pred_of ten_days (january_row 9)) []).
    reflexivity.
  - apply (predict_step_fails_only_on_missing_label
             constant_model unknown_feature
             (X_pred_of ten_days (january_row 9)) []).
    reflexivity.
Defined.

(* ===================================================================== *)
(** ** The fetchers                                                       *)
(* ===================================================================== *)

(** C3.  When the data endpoints answer with an [hourly] object that has
    the measured series but no [time] array, both fetchers raise
    [KeyError] instead of returning an empty table. *)
Theorem fetchers_raise_when_time_is_absent :
  fst (fetch_pm25 (services_over net_no_time)
                  "Delhi" "2024-01-01" "2024-01-10" []) =
    Raise (KeyError "time") /\
  fst (fetch_weather (services_over net_no_time)
                     "Delhi" "2024-01-01" "2024-01-10" []) =
    Raise (KeyError "time").
Proof. split; reflexivity. Qed.

(** C4.  Whenever the coordinate lookup returns an absent latitude, both
    fetchers return the empty table, leave the log exactly as the lookup
    left it, and that run contains no request to a data endpoint. *)
Theorem fetchers_return_empty_without_coordinates
        (sv : Services) (city start_date end_date : string)
        (h h' : log) (lon : json) :
  get_city_coordinates sv city h = (Ok (JNull, lon), h') ->
  fetch_pm25 sv city start_date end_date h = (Ok DataFrame_new, h') /\
  fetch_weather sv city start_date end_date h = (Ok DataFrame_new, h') /\
  empty DataFrame_new = true /\
  filter is_data_request (appended h h') = [].
Proof.
  intros Hgeo.
  split; [unfold fetch_pm25, mbind; now rewrite Hgeo|].
  split; [unfold fetch_weather, mbind; now rewrite Hgeo|].
  split; [reflexivity|].
  destruct (get_city_coordinates_log sv city h) as (tail & Hlog & Htail).
  rewrite Hgeo in Hlog. cbn [snd] in Hlog. subst h'.
  rewrite appended_app. cbn [filter is_data_request is_data_endpoint].
  exact Htail.
Qed.

Lemma fetchers_return_empty_without_coordinates_witness :
  fetch_pm25 (services_over net_no_match) "Atlantis" "2024-01-01"
             "2024-01-10" [] =
    (Ok DataFrame_new, [HttpGet (GeocodingSearch "Atlantis")]) /\
  fetch_weather (services_over net_no_match) "Atlantis" "2024-01-01"
                "2024-01-10" [] =
    (Ok DataFrame_new, [HttpGet (GeocodingSearch "Atlantis")]) /\
  empty DataFrame_new = true /\
  filter is_data_request
         (appended [] [HttpGet (GeocodingSearch "Atlantis")]) = [].
Proof.
  apply (fetchers_return_empty_without_coordinates
           (services_over net_no_match) "Atlantis" "2024-01-01" "2024-01-10"
           [] [HttpGet (GeocodingSearch "Atlantis")] JNull).
  reflexivity.
Defined.

(** C8, as stated, fails.  When the geocoder's first result is an object
    without coordinates, or is not an object at all, [get_city_coordinates]
    raises ([KeyError], respectively [TypeError]) to its caller. *)
Lemma get_city_coordinates_raises_on_odd_entries :
  get_city_coordinates (services_over net_bare_entry) "Delhi" [] =
    (Raise (KeyError "latitude"), [HttpGet (GeocodingSearch "Delhi")]) /\
  get_city_coordinates (services_over net_string_entry) "Delhi" [] =
    (Raise TypeError, [HttpGet (GeocodingSearch "Delhi")]).
Proof. split; reflexivity. Qed.

(** C8, amended.  On the replies it is written for (the call fails; the
    reply is an object without a [results] member or with an empty one;
    the reply is an object whose [results] is a non-empty array whose
    first entry is an object with [latitude] and [longitude])
    [get_city_coordinates] does not raise: it returns (absent, absent) in
    the first two cases and the entry's coordinates in the third. *)
Theorem get_city_coordinates_returns_on_expected_replies
        (sv : Services) (city : string) (h : log) (p : json * json) :
  coordinates_of_reply (requests_get_json sv h (GeocodingSearch city))
    = Some p ->
  fst (get_city_coordinates sv city h) = Ok p.
Proof.
  unfold get_city_coordinates, attempt, get_json, coordinates_of_reply.
  destruct (requests_get_json sv h (GeocodingSearch city)) as [e|resp].
  - intros [= <-]. reflexivity.
  - destruct resp as [| | | | |fields]; try discriminate.
    unfold mbind, lift, ret, contains, getitem, has_key.
    destruct (assoc "results" fields) as [results|]; cbn [negb fst Ok].
    + destruct (truthy results) eqn:Ht; cbn [negb fst].
      * destruct results as [| | | |items|]; try discriminate.
        destruct items as [|first items]; [discriminate|].
        destruct first as [| | | | |entry]; try discriminate.
        cbn [getitem0 Ok getitem].
        destruct (assoc "latitude" entry) as [lat|]; [|discriminate].
        destruct (assoc "longitude" entry) as [lon|]; [|discriminate].
        intros [= <-]. reflexivity.
      * intros [= <-]. reflexivity.
    + intros [= <-]. reflexivity.
Qed.

Lemma get_city_coordinates_returns_on_expected_replies_witness :
  fst (get_city_coordinates (services_over net_delhi) "Delhi" []) =
    Ok (JNum (143 # 5), JNum (386 # 5)).
Proof.
  apply (get_city_coordinates_returns_on_expected_replies
           (services_over net_delhi) "Delhi" []).
  reflexivity.
Defined.

(* ===================================================================== *)
(** ** The handler                                                        *)
(* ===================================================================== *)

(** C5.  On a daily table with fewer than 10 rows the handler shows the
    warning and does nothing else: no error message, no model loaded, no
    prediction.  A run of the forecast block that contains a prediction had
    a table of at least 10 rows, and so had a whole request that contains
    one. *)
Theorem forecast_requires_ten_rows
        (sv : Services) (city : string) (t : DailyTable) (h : log) :
  (len t < 10 ->
   forecast sv city t h =
     (Ok tt,
      (h ++ [StWarning
               "Not enough daily rows after feature creation for stable prediction."])%list)) /\
  (existsb is_prediction (appended h (snd (forecast sv city t h))) = true ->
   10 <= len t) /\
  (forall start_date end_date,
     existsb is_prediction
       (appended h (snd (on_button sv city start_date end_date h))) = true ->
     exists pm_df met_df t',
       make_daily_features sv pm_df met_df = Ok t' /\ 10 <= len t').
Proof.
  split; [apply forecast_short|].
  split; [apply forecast_predicts_only_with_ten_rows|].
  intros start_date end_date.
  apply on_button_predicts_only_with_ten_rows.
Qed.

Lemma forecast_requires_ten_rows_witness :
  forecast (services_over net_good) "Delhi" one_day [] =
    (Ok tt,
     ([] ++ [StWarning
               "Not enough daily rows after feature creation for stable prediction."])%list) /\
  10 <= len ten_days /\
  exists pm_df met_df t',
    make_daily_features (services_over net_good) pm_df met_df = Ok t' /\
    10 <= len t'.
Proof.
  split; [|split].
  - apply (forecast_requires_ten_rows
             (services_over net_good) "Delhi" one_day []).
    vm_compute. reflexivity.
  - apply (forecast_requires_ten_rows
             (services_over net_good) "Delhi" ten_days []).
    vm_compute. reflexivity.
  - apply (proj2 (proj2 (forecast_requires_ten_rows
                           (services_over net_good) "Delhi" ten_days []))
                 "2024-01-01" "2024-01-10").
    vm_compute. reflexivity.
Defined.

Module AssemblyFacts.

Import Py Calendar Frame Vocabulary CalendarFacts FrameFacts.

Lemma assemble_out_of_bounds (t : DailyTable) (last : DailyRow) :
  last_row t = Some last ->
  ~ next_day_representable last ->
  assemble t = Raise OutOfBounds.
Proof.
  intros Hlast Hover.
  pose proof (last_row_iloc t) as H. rewrite Hlast in H.
  destruct H as [Hne Hi].
  unfold assemble. rewrite Hi. cbn [bind Ok].
  unfold assemble_X_pred.
  change 2 with (Z.of_nat 2). change 3 with (Z.of_nat 3).
  change 7 with (Z.of_nat 7).
  change (-2) with (- Z.of_nat 2). change (-3) with (- Z.of_nat 3).
  change (-7) with (- Z.of_nat 7).
  rewrite !lag_eval by lia. cbn [bind Ok].
  rewrite rolling_mean_last
    by (rewrite length_map; destruct t; [congruence|cbn; lia]).
  cbn [bind Ok].
  unfold add, to_datetime, next_day_representable, Timedelta_days in *.
  destruct (Z.leb_spec (timestamp last + 1 * ns_per_day) int64_max); [lia|].
  reflexivity.
Qed.

Lemma assemble_empty : assemble [] = Raise IndexError.
Proof. reflexivity. Qed.

Lemma last_row_none (t : DailyTable) : last_row t = None -> t = [].
Proof.
  intros H. pose proof (last_row_iloc t) as H'. rewrite H in H'. apply H'.
Qed.

Lemma last_row_app (p tail : DailyTable) :
  tail <> [] -> last_row (p ++ tail)%list = last_row tail.
Proof.
  intros Hne. unfold last_row. rewrite length_app.
  destruct tail as [|r tail]; [congruence|]. cbn [List.length].
  rewrite nth_error_app2 by lia. f_equal. lia.
Qed.

Lemma kth_from_last_app (k : nat) (p tail : DailyTable) :
  (k <= List.length tail)%nat ->
  kth_from_last k (p ++ tail)%list = kth_from_last k tail.
Proof.
  intros Hk. unfold kth_from_last. rewrite length_app.
  destruct (Nat.leb_spec 1 k); [|reflexivity]. cbn [andb].
  destruct (Nat.leb_spec k (List.length tail)); [|lia].
  destruct (Nat.leb_spec k (List.length p + List.length tail)); [|lia].
  rewrite nth_error_app2 by lia. f_equal. lia.
Qed.

Lemma ma_3_value_app (p tail : DailyTable) :
  (3 <= List.length tail)%nat ->
  ma_3_value (p ++ tail)%list = ma_3_value tail.
Proof.
  intros Hk. unfold ma_3_value. rewrite length_app.
  destruct (Nat.ltb_spec (List.length p + List.length tail) 3); [lia|].
  destruct (Nat.ltb_spec (List.length tail) 3); [lia|].
  rewrite map_app, skipn_app, length_map.
  rewrite (skipn_all2 (map pm25 p)) by (rewrite length_map; lia).
  cbn [app]. do 3 f_equal. lia.
Qed.

Lemma X_pred_of_app (p tail : DailyTable) (last : DailyRow) :
  (7 <= List.length tail)%nat ->
  X_pred_of (p ++ tail)%list last = X_pred_of tail last.
Proof.
  intros Hk. unfold X_pred_of, lag_value.
  rewrite !kth_from_last_app by lia. now rewrite ma_3_value_app by lia.
Qed.

Ltac fold_months :=
  repeat match goal with
         | |- context [fold_right Z.add 0 ?l] =>
             let v := eval vm_compute in (fold_right Z.add 0 l) in
             change (fold_right Z.add 0 l) with v
         end.

(** Day of the year of the next calendar day: one more, or 1 after
    December 31. *)
Lemma ordinal_tomorrow (d : date) :
  Gregorian.valid d = true ->
  Gregorian.ordinal (Gregorian.tomorrow d) =
  if Gregorian.is_december_31 d then 1 else Gregorian.ordinal d + 1.
Proof.
  destruct d as [y m dd].
  unfold Gregorian.valid, Gregorian.tomorrow, Gregorian.is_december_31.
  cbn [year month day]. intros Hv.
  apply andb_prop in Hv as [Hv Hd2]. apply andb_prop in Hv as [Hv Hd1].
  apply andb_prop in Hv as [Hlo Hhi].
  apply Z.leb_le in Hlo, Hhi, Hd1, Hd2.
  destruct (Z.ltb_spec dd (Gregorian.month_length y m)) as [Hlt|Hge];
    [|destruct (Z.ltb_spec m 12) as [Hm12|Hm12]];
    unfold Gregorian.ordinal, Gregorian.days_before_month,
      Gregorian.month_length in *;
    cbn [year month day].
  all: assert (Hm : m = 1 \/ m = 2 \/ m = 3 \/ m = 4 \/ m = 5 \/ m = 6 \/
                    m = 7 \/ m = 8 \/ m = 9 \/ m = 10 \/ m = 11 \/ m = 12)
    by lia.
  all: repeat (destruct Hm as [Hm|Hm]; [|]).
  all: subst m; try lia; destruct (Gregorian.leap_year y);
    cbn in *; fold_months;
    try match goal with
        | |- context [Z.eqb ?a 31] => destruct (Z.eqb_spec a 31)
        end; lia.
Qed.

Lemma ordinal_range (d : date) :
  Gregorian.valid d = true ->
  1 <= Gregorian.ordinal d <= Gregorian.year_length (year d).
Proof.
  destruct d as [y m dd].
  unfold Gregorian.valid, Gregorian.year_length,
    Gregorian.ordinal, Gregorian.days_before_month, Gregorian.month_length.
  cbn [year month day]. intros Hv.
  apply andb_prop in Hv as [Hv Hd2]. apply andb_prop in Hv as [Hv Hd1].
  apply andb_prop in Hv as [Hlo Hhi].
  apply Z.leb_le in Hlo, Hhi, Hd1, Hd2.
  assert (Hm : m = 1 \/ m = 2 \/ m = 3 \/ m = 4 \/ m = 5 \/ m = 6 \/
               m = 7 \/ m = 8 \/ m = 9 \/ m = 10 \/ m = 11 \/ m = 12) by lia.
  repeat (destruct Hm as [Hm|Hm]; [|]).
  all: subst m; destruct (Gregorian.leap_year y); cbn in Hd2 |- *;
    fold_months; lia.
Qed.

Lemma dayofyear_ordinal (ts : Timestamp) :
  dayofyear ts = Gregorian.ordinal (date_of ts).
Proof. unfold dayofyear. apply get_day_of_year_ordinal, date_of_valid. Qed.

(** The assembly in closed form. *)
Lemma assemble_closed_form (t : DailyTable) :
  assemble t =
  match last_row t with
  | None => Raise IndexError
  | Some last =>
      if timestamp last + ns_per_day <=? int64_max
      then Ok (X_pred_of t last) else Raise OutOfBounds
  end.
Proof.
  destruct (last_row t) as [last|] eqn:Hlast.
  - destruct (Z.leb_spec (timestamp last + ns_per_day) int64_max).
    + now apply assemble_ok.
    + apply (assemble_out_of_bounds t last); [exact Hlast|].
      unfold next_day_representable. lia.
  - apply last_row_none in Hlast. now subst.
Qed.

Lemma window_mean_three (a b c : float) :
  match a, b, c with
  | Num x, Num y, Num z =>
      float_eq (window_mean [a; b; c]) (Num ((x + y + z) / 3))
  | _, _, _ => window_mean [a; b; c] = NaN
  end.
Proof.
  destruct a as [|x], b as [|y], c as [|z]; try reflexivity.
  cbn. unfold Qeq, Qdiv, Qmult, Qplus, Qinv, inject_Z. cbn.
  destruct x, y, z. cbn. lia.
Qed.

Lemma ma_3_value_last_three (p : DailyTable) (r1 r2 r3 : DailyRow) :
  ma_3_value (p ++ [r1; r2; r3])%list =
  window_mean [pm25 r1; pm25 r2; pm25 r3].
Proof. now rewrite ma_3_value_app by (cbn; lia). Qed.

End AssemblyFacts.

(* ===================================================================== *)
(** ** Further properties of the forecast assembly                        *)
(* ===================================================================== *)

Import AssemblyFacts.

(** X1.  The assembly raises [IndexError] on the empty daily table (there
    is no last row) and on no other table: on a table with rows the guarded
    look-ups of the second, third and seventh row from the end never fall
    outside the table. *)
Theorem assemble_raises_index_error_only_on_empty_table (t : DailyTable) :
  assemble t = Raise IndexError <-> t = [].
Proof.
  split; [|now intros ->].
  intros He. rewrite assemble_closed_form in He.
  destruct (last_row t) as [last|] eqn:Hlast.
  - destruct (timestamp last + ns_per_day <=? int64_max); discriminate He.
  - now apply last_row_none.
Qed.

Lemma assemble_raises_index_error_only_on_empty_table_witness :
  assemble [] = Raise IndexError.
Proof.
  apply (proj2 (assemble_raises_index_error_only_on_empty_table [])).
  reflexivity.
Defined.

(** X2.  Apart from [pm25_ma_3], the assembled row is read off the last
    seven rows: two tables that end with the same seven or more rows (the
    last timestamp being movable one day ahead) are both assembled, and
    the two rows agree on the weather values, on every lag and on
    [dayofyear], whatever comes before the common rows. *)
Theorem lags_and_latest_values_read_last_seven_rows
        (p1 p2 tail : DailyTable) (last : DailyRow) :
  7 <= len tail ->
  last_row tail = Some last ->
  next_day_representable last ->
  exists X1 X2,
    assemble (p1 ++ tail)%list = Ok X1 /\
    assemble (p2 ++ tail)%list = Ok X2 /\
    forall k, k <> "pm25_ma_3" -> assoc k X1 = assoc k X2.
Proof.
  intros Hlen Hlast Hrep. unfold len in Hlen.
  assert (Hne : tail <> []) by (destruct tail; [cbn in Hlen; lia|discriminate]).
  exists (X_pred_of (p1 ++ tail)%list last), (X_pred_of (p2 ++ tail)%list last).
  split; [apply assemble_ok; [now rewrite last_row_app|exact Hrep]|].
  split; [apply assemble_ok; [now rewrite last_row_app|exact Hrep]|].
  intros k _. now rewrite !X_pred_of_app by lia.
Qed.

Lemma lags_and_latest_values_read_last_seven_rows_witness :
  exists X1 X2,
    assemble (one_day ++ ten_days)%list = Ok X1 /\
    assemble ([] ++ ten_days)%list = Ok X2 /\
    forall k, k <> "pm25_ma_3" -> assoc k X1 = assoc k X2.
Proof.
  apply (lags_and_latest_values_read_last_seven_rows
           one_day [] ten_days (january_row 9)).
  - vm_compute. discriminate.
  - reflexivity.
  - vm_compute. discriminate.
Defined.

(** X3.  In the assembled row the weather values and [pm25_lag_1] are the
    last row's; with at least two rows [pm25_lag_2] is the pm25 of the
    second row from the end, and with at least three rows [pm25_lag_3] is
    that of the third. *)
Theorem latest_values_and_short_lags (t : DailyTable) (last : DailyRow) :
  last_row t = Some last ->
  next_day_representable last ->
  exists X,
    assemble t = Ok X /\
    assoc "temperature" X = Some (VFloat (temperature last)) /\
    assoc "relativehumidity" X = Some (VFloat (relativehumidity last)) /\
    assoc "windspeed" X = Some (VFloat (windspeed last)) /\
    assoc "pm25_lag_1" X = Some (VFloat (pm25 last)) /\
    (2 <= len t ->
     exists r, kth_from_last 2 t = Some r /\
               assoc "pm25_lag_2" X = Some (VFloat (pm25 r))) /\
    (3 <= len t ->
     exists r, kth_from_last 3 t = Some r /\
               assoc "pm25_lag_3" X = Some (VFloat (pm25 r))).
Proof.
  intros Hlast Hrep. exists (X_pred_of t last).
  split; [now apply assemble_ok|].
  repeat (split; [reflexivity|]). unfold len.
  split; intros Hk.
  - destruct (lag_value_long 2 t last) as (r & Hr & Hv); [lia|].
    exists r. split; [exact Hr|]. cbn. now rewrite Hv.
  - destruct (lag_value_long 3 t last) as (r & Hr & Hv); [lia|].
    exists r. split; [exact Hr|]. cbn. now rewrite Hv.
Qed.

Lemma latest_values_and_short_lags_witness :
  exists X,
    assemble ten_days = Ok X /\
    assoc "temperature" X = Some (VFloat (temperature (january_row 9))) /\
    assoc "relativehumidity" X =
      Some (VFloat (relativehumidity (january_row 9))) /\
    assoc "windspeed" X = Some (VFloat (windspeed (january_row 9))) /\
    assoc "pm25_lag_1" X = Some (VFloat (pm25 (january_row 9))) /\
    (2 <= len ten_days ->
     exists r, kth_from_last 2 ten_days = Some r /\
               assoc "pm25_lag_2" X = Some (VFloat (pm25 r))) /\
    (3 <= len ten_days ->
     exists r, kth_from_last 3 ten_days = Some r /\
               assoc "pm25_lag_3" X = Some (VFloat (pm25 r))).
Proof.
  apply (latest_values_and_short_lags ten_days (january_row 9)).
  - reflexivity.
  - vm_compute. discriminate.
Defined.

(** X4.  [pm25_ma_3] is NaN whenever three observations are not at hand:
    when the table has fewer than three rows, and when the pm25 of one of
    the last three rows is NaN. *)
Theorem pm25_ma_3_is_nan_without_three_observations
        (t : DailyTable) (last : DailyRow) :
  last_row t = Some last ->
  next_day_representable last ->
  exists X,
    assemble t = Ok X /\
    (len t < 3 -> assoc "pm25_ma_3" X = Some (VFloat NaN)) /\
    (forall p r1 r2 r3,
       t = (p ++ [r1; r2; r3])%list ->
       pm25 r1 = NaN \/ pm25 r2 = NaN \/ pm25 r3 = NaN ->
       assoc "pm25_ma_3" X = Some (VFloat NaN)).
Proof.
  intros Hlast Hrep. exists (X_pred_of t last).
  split; [now apply assemble_ok|]. split.
  - unfold len. intros Hk. cbn. unfold ma_3_value.
    destruct (Nat.ltb_spec (List.length t) 3); [reflexivity|lia].
  - intros p r1 r2 r3 -> Hnan. cbn. rewrite ma_3_value_last_three.
    pose proof (window_mean_three (pm25 r1) (pm25 r2) (pm25 r3)) as H.
    destruct (pm25 r1), (pm25 r2), (pm25 r3);
      try (now rewrite H);
      destruct Hnan as [Hn|[Hn|Hn]]; discriminate Hn.
Qed.

Lemma pm25_ma_3_is_nan_without_three_observations_witness :
  (exists X, assemble one_day = Ok X /\
             assoc "pm25_ma_3" X = Some (VFloat NaN)) /\
  (exists X, assemble gap_days = Ok X /\
             assoc "pm25_ma_3" X = Some (VFloat NaN)).
Proof.
  split.
  - destruct (pm25_ma_3_is_nan_without_three_observations
                one_day (january_row 0)) as (X & HX & Hshort & _).
    + reflexivity.
    + vm_compute. discriminate.
    + exists X. split; [exact HX|]. apply Hshort. vm_compute. reflexivity.
  - destruct (pm25_ma_3_is_nan_without_three_observations
                gap_days (january_row 9)) as (X & HX & _ & Hgap).
    + reflexivity.
    + vm_compute. discriminate.
    + exists X. split; [exact HX|].
      apply (Hgap (map january_row (zrange 0 7))
                  (january_row 7)
                  (mkrow (midnight (jan_1_2024 + 8)) NaN
                         (Num 20) (Num 50) (Num 3))
                  (january_row 9)).
      * reflexivity.
      * right. left. reflexivity.
Defined.

(** X5.  The assembled [dayofyear] lies between 1 and 366 and is one more
    than the day of the year of the last row's own timestamp, except after
    a December 31, where it is 1. *)
Theorem dayofyear_steps_from_last_row (t : DailyTable) (last : DailyRow) :
  last_row t = Some last ->
  next_day_representable last ->
  exists X n,
    assemble t = Ok X /\
    assoc "dayofyear" X = Some (VInt n) /\
    1 <= n <= 366 /\
    n = if Gregorian.is_december_31 (date_of (timestamp last))
        then 1 else dayofyear (timestamp last) + 1.
Proof.
  intros Hlast Hrep.
  exists (X_pred_of t last), (dayofyear (timestamp last + Timedelta_days 1)).
  split; [now apply assemble_ok|]. split; [reflexivity|]. split.
  - rewrite dayofyear_ordinal.
    pose proof (ordinal_range _ (date_of_valid (timestamp last
                                                + Timedelta_days 1))) as H.
    unfold Gregorian.year_length in H.
    destruct (Gregorian.leap_year _); lia.
  - rewrite dayofyear_add_day, dayofyear_ordinal.
    apply ordinal_tomorrow, date_of_valid.
Qed.

Lemma dayofyear_steps_from_last_row_witness :
  exists X n,
    assemble ten_days = Ok X /\
    assoc "dayofyear" X = Some (VInt n) /\
    1 <= n <= 366 /\
    n = if Gregorian.is_december_31 (date_of (timestamp (january_row 9)))
        then 1 else dayofyear (timestamp (january_row 9)) + 1.
Proof.
  apply (dayofyear_steps_from_last_row ten_days (january_row 9)).
  - reflexivity.
  - vm_compute. discriminate.
Defined.

(* ===================================================================== *)
(** ** Further properties of the column selection                         *)
(* ===================================================================== *)

Module SelectFacts.

Import Py Calendar Frame Effects Vocabulary App AppFacts.

Lemma restrict_map (X : dict) (cols : list string) :
  all_present X cols = true ->
  restrict X cols =
  map (fun c => (c, match assoc c X with
                    | Some v => v
                    | None => VInt 0
                    end)) cols.
Proof.
  unfold all_present, has_key.
  induction cols as [|a cols IH]; intros Hall; [reflexivity|].
  cbn [forallb] in Hall. apply andb_prop in Hall as [Ha Hall].
  cbn [restrict flat_map map]. fold (restrict X cols).
  destruct (assoc a X) as [v|]; [|discriminate].
  cbn [app]. now rewrite IH.
Qed.

Lemma X_pred_of_has_keys (t : DailyTable) (last : DailyRow) (c : string) :
  In c X_pred_keys -> has_key c (X_pred_of t last) = true.
Proof.
  intros Hin. cbn in Hin.
  repeat (destruct Hin as [<-|Hin]; [reflexivity|]). destruct Hin.
Qed.

End SelectFacts.

Import SelectFacts.

(** X7.  When the model's feature list is the nine labels in any order,
    the selection succeeds on every assembled row and the model is called
    on the same nine label/value pairs, arranged in the order of the list;
    with the labels in assembly order the model receives the assembled row
    itself. *)
Theorem permuted_feature_list_keeps_every_value
        (t : DailyTable) (X : dict) (feature_cols : list string)
        (model : Model) (h : log) :
  assemble t = Ok X ->
  Permutation feature_cols X_pred_keys ->
  exists X_pred_df,
    select_columns X feature_cols = Ok X_pred_df /\
    keys X_pred_df = feature_cols /\
    Permutation X_pred_df X /\
    (feature_cols = X_pred_keys -> X_pred_df = X) /\
    predict_step model feature_cols X h =
      (predict model X_pred_df, (h ++ [ModelPredict X_pred_df])%list).
Proof.
  intros HX Hperm.
  apply FrameFacts.assemble_inv in HX as (last & _ & _ & ->).
  assert (Hall : all_present (X_pred_of t last) feature_cols = true).
  { apply forallb_forall. intros c Hc. apply X_pred_of_has_keys.
    eapply Permutation_in; eassumption. }
  destruct (select_columns_present _ _ Hall) as [Hsel Hkeys].
  exists (restrict (X_pred_of t last) feature_cols).
  split; [exact Hsel|]. split; [exact Hkeys|].
  split; [|split].
  - rewrite restrict_map by exact Hall.
    change (X_pred_of t last)
      with (map (fun c => (c, match assoc c (X_pred_of t last) with
                              | Some v => v
                              | None => VInt 0
                              end)) X_pred_keys) at 2.
    now apply Permutation_map.
  - intros ->. reflexivity.
  - unfold predict_step, mbind, lift, model_predict. now rewrite Hsel.
Qed.

Lemma permuted_feature_list_keeps_every_value_witness :
  exists X_pred_df,
    select_columns (X_pred_of ten_days (january_row 9)) reversed_features =
      Ok X_pred_df /\
    keys X_pred_df = reversed_features /\
    Permutation X_pred_df (X_pred_of ten_days (january_row 9)) /\
    (reversed_features = X_pred_keys ->
     X_pred_df = X_pred_of ten_days (january_row 9)) /\
    predict_step constant_model reversed_features
                 (X_pred_of ten_days (january_row 9)) [] =
      (predict constant_model X_pred_df,
       ([] ++ [ModelPredict X_pred_df])%list).
Proof.
  apply (permuted_feature_list_keeps_every_value
           ten_days (X_pred_of ten_days (january_row 9)) reversed_features
           constant_model []).
  - vm_compute. reflexivity.
  - symmetry. apply Permutation_rev.
Defined.

(* ===================================================================== *)
(** ** Further properties of the fetchers and of the handler              *)
(* ===================================================================== *)

Module RequestFacts.

Import Py Calendar Frame Effects Vocabulary App AppFacts.

Lemma requests_of_app (l1 l2 : log) :
  requests_of (l1 ++ l2)%list = (requests_of l1 ++ requests_of l2)%list.
Proof. unfold requests_of. apply flat_map_app. Qed.

Lemma requests_of_none (l : log) :
  forallb not_request l = true -> requests_of l = [].
Proof.
  induction l as [|ev l IH]; [reflexivity|].
  cbn [forallb]. intros H. apply andb_prop in H as [Hev Hl].
  destruct ev; try discriminate; cbn; now apply IH.
Qed.

(** Case analysis on every test of a straight-line computation. *)
Ltac split_cases :=
  repeat (match goal with
          | |- context [match ?x with _ => _ end] =>
              lazymatch x with
              | context [match _ with _ => _ end] => fail
              | _ => destruct x eqn:?
              end
          end; cbn [fst snd negb]).

Section WithServices.

Variable sv : Services.

(** What follows the reply in the three functions touches neither the
    network nor the page. *)
Lemma get_city_coordinates_run (city : string) (h : log) :
  snd (get_city_coordinates sv city h) =
  (h ++ HttpGet (GeocodingSearch city) ::
     match requests_get_json sv h (GeocodingSearch city) with
     | inl e => [StError "Error fetching city coordinates: " (Some e)]
     | inr _ => []
     end)%list.
Proof.
  unfold get_city_coordinates, attempt, get_json.
  destruct (requests_get_json sv h (GeocodingSearch city)) as [e|resp].
  - unfold mbind, st_error, emit, ret. cbn.
    now rewrite <- app_assoc.
  - unfold mbind, lift, ret. split_cases; reflexivity.
Qed.

Lemma fetch_pm25_without_latitude
      (city start_date end_date : string) (h h1 : log)
      (r : result (json * json)) :
  get_city_coordinates sv city h = (r, h1) ->
  data_request_after AirQualityHourly r start_date end_date = [] ->
  fetch_pm25 sv city start_date end_date h =
    (match r with
     | inl e => inl e
     | inr _ => Ok DataFrame_new
     end, h1).
Proof.
  intros Hgeo Hnone. unfold fetch_pm25, mbind. rewrite Hgeo.
  destruct r as [e|[lat lon]]; [reflexivity|].
  cbn [data_request_after] in Hnone.
  destruct (is_None lat); [reflexivity|discriminate].
Qed.

Lemma fetch_weather_without_latitude
      (city start_date end_date : string) (h h1 : log)
      (r : result (json * json)) :
  get_city_coordinates sv city h = (r, h1) ->
  data_request_after ArchiveHourly r start_date end_date = [] ->
  fetch_weather sv city start_date end_date h =
    (match r with
     | inl e => inl e
     | inr _ => Ok DataFrame_new
     end, h1).
Proof.
  intros Hgeo Hnone. unfold fetch_weather, mbind. rewrite Hgeo.
  destruct r as [e|[lat lon]]; [reflexivity|].
  cbn [data_request_after] in Hnone.
  destruct (is_None lat); [reflexivity|discriminate].
Qed.

Lemma fetch_pm25_run
      (city start_date end_date : string) (h h1 : log) (lat lon : json) :
  get_city_coordinates sv city h = (Ok (lat, lon), h1) ->
  is_None lat = false ->
  snd (fetch_pm25 sv city start_date end_date h) =
  (h1 ++ HttpGet (AirQualityHourly lat lon start_date end_date) ::
     match requests_get_json sv h1
             (AirQualityHourly lat lon start_date end_date) with
     | inl e => [StError "Error fetching PM2.5 data: " (Some e)]
     | inr _ => []
     end)%list.
Proof.
  intros Hgeo Hlat. unfold fetch_pm25, mbind. rewrite Hgeo.
  cbn [Ok]. rewrite Hlat. unfold attempt, get_json.
  destruct (requests_get_json sv h1 _) as [e|resp].
  - unfold mbind, st_error, emit, ret. cbn. now rewrite <- app_assoc.
  - unfold mbind, lift, ret. split_cases; reflexivity.
Qed.

Lemma fetch_weather_run
      (city start_date end_date : string) (h h1 : log) (lat lon : json) :
  get_city_coordinates sv city h = (Ok (lat, lon), h1) ->
  is_None lat = false ->
  snd (fetch_weather sv city start_date end_date h) =
  (h1 ++ HttpGet (ArchiveHourly lat lon start_date end_date) ::
     match requests_get_json sv h1
             (ArchiveHourly lat lon start_date end_date) with
     | inl e => [StError "Error fetching weather data: " (Some e)]
     | inr _ => []
     end)%list.
Proof.
  intros Hgeo Hlat. unfold fetch_weather, mbind. rewrite Hgeo.
  cbn [Ok]. rewrite Hlat. unfold attempt, get_json.
  destruct (requests_get_json sv h1 _) as [e|resp].
  - unfold mbind, st_error, emit, ret. cbn. now rewrite <- app_assoc.
  - unfold mbind, lift, ret. split_cases; reflexivity.
Qed.

Lemma get_city_coordinates_requests (city : string) (h : log) :
  requests_of (appended h (snd (get_city_coordinates sv city h))) =
  [GeocodingSearch city].
Proof.
  rewrite get_city_coordinates_run, appended_app. cbn.
  now destruct (requests_get_json sv h (GeocodingSearch city)).
Qed.

Lemma fetch_pm25_requests (city start_date end_date : string) (h : log) :
  requests_of (appended h (snd (fetch_pm25 sv city start_date end_date h))) =
    GeocodingSearch city ::
    data_request_after AirQualityHourly
      (fst (get_city_coordinates sv city h)) start_date end_date.
Proof.
  pose proof (get_city_coordinates_run city h) as Hrun.
  pose proof (get_city_coordinates_requests city h) as Hlookup.
  destruct (get_city_coordinates sv city h) as [r h1] eqn:Hgeo.
  cbn [fst snd] in *.
  destruct (data_request_after AirQualityHourly r start_date end_date)
    as [|u us] eqn:Hreq.
  - rewrite (fetch_pm25_without_latitude _ _ _ _ _ _ Hgeo Hreq).
    exact Hlookup.
  - destruct r as [e|[lat lon]]; [discriminate|].
    cbn [data_request_after] in Hreq.
    destruct (is_None lat) eqn:Hlat; [discriminate|].
    injection Hreq as <- <-.
    rewrite (fetch_pm25_run _ _ _ _ _ _ _ Hgeo Hlat).
    subst h1. rewrite <- app_assoc, appended_app. cbn.
    destruct (requests_get_json sv h (GeocodingSearch city));
      destruct (requests_get_json sv _ (AirQualityHourly _ _ _ _));
      reflexivity.
Qed.

Lemma fetch_weather_requests (city start_date end_date : string) (h : log) :
  requests_of
    (appended h (snd (fetch_weather sv city start_date end_date h))) =
    GeocodingSearch city ::
    data_request_after ArchiveHourly
      (fst (get_city_coordinates sv city h)) start_date end_date.
Proof.
  pose proof (get_city_coordinates_run city h) as Hrun.
  pose proof (get_city_coordinates_requests city h) as Hlookup.
  destruct (get_city_coordinates sv city h) as [r h1] eqn:Hgeo.
  cbn [fst snd] in *.
  destruct (data_request_after ArchiveHourly r start_date end_date)
    as [|u us] eqn:Hreq.
  - rewrite (fetch_weather_without_latitude _ _ _ _ _ _ Hgeo Hreq).
    exact Hlookup.
  - destruct r as [e|[lat lon]]; [discriminate|].
    cbn [data_request_after] in Hreq.
    destruct (is_None lat) eqn:Hlat; [discriminate|].
    injection Hreq as <- <-.
    rewrite (fetch_weather_run _ _ _ _ _ _ _ Hgeo Hlat).
    subst h1. rewrite <- app_assoc, appended_app. cbn.
    destruct (requests_get_json sv h (GeocodingSearch city));
      destruct (requests_get_json sv _ (ArchiveHourly _ _ _ _));
      reflexivity.
Qed.

(** Without a data request a fetcher has no table to return. *)
Lemma fetch_pm25_nonempty_sent_request
      (city start_date end_date : string) (h h1 : log) (pm_df : DataFrame) :
  fetch_pm25 sv city start_date end_date h = (Ok pm_df, h1) ->
  empty pm_df = false ->
  exists lat lon,
    data_request_after AirQualityHourly
      (fst (get_city_coordinates sv city h)) start_date end_date =
    [AirQualityHourly lat lon start_date end_date].
Proof.
  intros Hfetch Hne.
  destruct (get_city_coordinates sv city h) as [r h0] eqn:Hgeo.
  cbn [fst].
  destruct (data_request_after AirQualityHourly r start_date end_date)
    as [|u us] eqn:Hreq.
  - rewrite (fetch_pm25_without_latitude _ _ _ _ _ _ Hgeo Hreq) in Hfetch.
    destruct r; [discriminate|]. injection Hfetch as <- _. discriminate Hne.
  - destruct r as [e|[lat lon]]; [discriminate|].
    cbn [data_request_after] in Hreq.
    destruct (is_None lat); [discriminate|].
    injection Hreq as <- <-. now exists lat, lon.
Qed.

(** The run of the forecast block on a table of at least ten rows. *)
Lemma forecast_run (city : string) (t : DailyTable) (h : log) :
  10 <= len t ->
  forecast sv city t h =
  match joblib_load sv with
  | inl e => (inl e, (h ++ [LoadModel])%list)
  | inr (model, feature_cols) =>
      match iloc t (-1) with
      | inl e => (inl e, (h ++ [LoadModel])%list)
      | inr last =>
          match assemble_X_pred t last with
          | inl e => (inl e, (h ++ [LoadModel])%list)
          | inr X =>
              match select_columns X feature_cols with
              | inl e => (inl e, (h ++ [LoadModel])%list)
              | inr X_df =>
                  match predict model X_df with
                  | inl e =>
                      (inl e, (h ++ [LoadModel; ModelPredict X_df])%list)
                  | inr y =>
                      (Ok tt,
                       (h ++ [LoadModel; ModelPredict X_df;
                              StWrite
                                "Latest observed daily PM2.5 (last date):"
                                (timestamp last) (pm25 last);
                              StSuccess y;
                              StLineChart
                                (map (fun r => (timestamp r, pm25 r)) t);
                              StDownloadButton
                                (city ++ "_daily_features.csv") t])%list)
                  end
              end
          end
      end
  end.
Proof.
  intros Hlen. unfold forecast.
  destruct (Z.ltb_spec (len t) 10); [lia|].
  unfold predict_step, mbind, load_model, lift, model_predict, emit, Ok.
  destruct (joblib_load sv) as [e|[model feature_cols]]; [reflexivity|].
  cbv beta iota.
  destruct (iloc t (-1)) as [e|last]; [reflexivity|]. cbv beta iota.
  destruct (assemble_X_pred t last) as [e|X]; [reflexivity|]. cbv beta iota.
  destruct (select_columns X feature_cols) as [e|X_df]; [reflexivity|].
  cbv beta iota.
  destruct (predict model X_df) as [e|y]; cbv beta iota;
    rewrite <- ?app_assoc; reflexivity.
Qed.

Lemma forecast_no_requests (city : string) (t : DailyTable) :
  appends_only not_request (forecast sv city t).
Proof.
  intros h. destruct (Z.lt_ge_cases (len t) 10) as [Hlt|Hge].
  - rewrite (forecast_short sv city t h Hlt). eexists. now split.
  - rewrite (forecast_run city t h Hge).
    destruct (joblib_load sv) as [e|[model feature_cols]];
      [eexists; now split|].
    destruct (iloc t (-1)) as [e|last]; [eexists; now split|].
    destruct (assemble_X_pred t last) as [e|X]; [eexists; now split|].
    destruct (select_columns X feature_cols) as [e|X_df];
      [eexists; now split|].
    destruct (predict model X_df) as [e|y]; eexists; now split.
Qed.

Lemma appends_only_extends {A} (P : event -> bool) (c : M A) (h : log) :
  appends_only P c ->
  snd (c h) = (h ++ appended h (snd (c h)))%list /\
  forallb P (appended h (snd (c h))) = true.
Proof.
  intros Hc. destruct (Hc h) as (l & E & Hl).
  rewrite E, appended_app. now split.
Qed.

Lemma data_request_after_cases
      (endpoint : json -> json -> string -> string -> url)
      (r : result (json * json)) (start_date end_date : string) :
  data_request_after endpoint r start_date end_date = [] \/
  exists lat lon,
    data_request_after endpoint r start_date end_date =
    [endpoint lat lon start_date end_date].
Proof.
  destruct r as [e|[lat lon]]; [now left|]. cbn.
  destruct (is_None lat); [now left|]. right. now exists lat, lon.
Qed.

Lemma fetch_pm25_extends (city start_date end_date : string) (h : log) :
  snd (fetch_pm25 sv city start_date end_date h) =
  (h ++ appended h (snd (fetch_pm25 sv city start_date end_date h)))%list.
Proof.
  apply (appends_only_extends not_prediction), fetch_pm25_quiet.
Qed.

Lemma fetch_weather_extends (city start_date end_date : string) (h : log) :
  snd (fetch_weather sv city start_date end_date h) =
  (h ++ appended h (snd (fetch_weather sv city start_date end_date h)))%list.
Proof.
  apply (appends_only_extends not_prediction), fetch_weather_quiet.
Qed.

(** The requests of a whole run of the handler. *)
Lemma on_button_requests (city start_date end_date : string) (h : log) :
  let pm_run := fetch_pm25 sv city start_date end_date h in
  let pm_requests := requests_of (appended h (snd pm_run)) in
  requests_of (appended h (snd (on_button sv city start_date end_date h))) =
  match fst pm_run with
  | inl _ => pm_requests
  | inr pm_df =>
      if empty pm_df then pm_requests
      else (pm_requests ++
            requests_of
              (appended (snd pm_run)
                 (snd (fetch_weather sv city start_date end_date
                                     (snd pm_run)))))%list
  end.
Proof.
  cbv zeta. unfold on_button, mbind.
  pose proof (fetch_pm25_extends city start_date end_date h) as E1.
  destruct (fetch_pm25 sv city start_date end_date h) as [[e|pm_df] h1].
  { reflexivity. }
  cbn [fst snd] in *.
  destruct (empty pm_df).
  { unfold st_error, emit. cbn [snd]. rewrite E1 at 1.
    rewrite <- app_assoc, appended_app, requests_of_app. cbn.
    now rewrite app_nil_r. }
  pose proof (fetch_weather_extends city start_date end_date h1) as E2.
  set (a1 := appended h h1) in *.
  destruct (fetch_weather sv city start_date end_date h1) as [[e|met_df] h2];
    cbn [fst snd] in *.
  { rewrite E2, E1 at 1. rewrite <- app_assoc, appended_app.
    now rewrite requests_of_app. }
  set (a2 := appended h1 h2) in *.
  assert (Hh2 : forall l, requests_of (appended h (h2 ++ l)%list) =
                          (requests_of a1 ++ requests_of a2
                           ++ requests_of l)%list).
  { intros l. rewrite E2, E1 at 1.
    rewrite <- !app_assoc, appended_app. now rewrite !requests_of_app. }
  destruct (empty met_df).
  { unfold st_error, emit. cbn [snd]. rewrite Hh2. cbn.
    now rewrite app_nil_r. }
  unfold lift.
  destruct (make_daily_features sv pm_df met_df) as [e|t]; cbn [snd].
  { rewrite <- (app_nil_r h2), Hh2. cbn. now rewrite app_nil_r. }
  unfold reset_index.
  destruct (appends_only_extends not_request (forecast sv city t) h2
              (forecast_no_requests city t)) as [E3 P3].
  rewrite E3, Hh2, (requests_of_none _ P3). now rewrite app_nil_r.
Qed.

Lemma handler_messages_app (l1 l2 : log) :
  handler_messages (l1 ++ l2)%list =
  (handler_messages l1 ++ handler_messages l2)%list.
Proof. unfold handler_messages. apply flat_map_app. Qed.

Lemma handler_messages_none (l : log) :
  forallb no_handler_message l = true -> handler_messages l = [].
Proof.
  induction l as [|ev l IH]; [reflexivity|].
  cbn [forallb]. intros H. apply andb_prop in H as [Hev Hl].
  destruct ev as [| msg [c|] | | | | | | |]; try discriminate; cbn;
    now apply IH.
Qed.

Lemma fetch_pm25_no_handler_message (city start_date end_date : string) :
  appends_only no_handler_message (fetch_pm25 sv city start_date end_date).
Proof.
  unfold fetch_pm25, get_city_coordinates, st_error.
  repeat appends_only_step.
Qed.

Lemma fetch_weather_no_handler_message (city start_date end_date : string) :
  appends_only no_handler_message
               (fetch_weather sv city start_date end_date).
Proof.
  unfold fetch_weather, get_city_coordinates, st_error.
  repeat appends_only_step.
Qed.

End WithServices.

End RequestFacts.

Import RequestFacts.

(** X8.  A fetcher never retries and never contacts the other endpoint: a
    run sends the geocoding request and then at most one data request, to
    its own endpoint, with the coordinates the lookup returned and the
    dates it was given; it sends none when the lookup raised or returned
    an absent latitude. *)
Theorem fetchers_send_lookup_then_at_most_one_data_request
        (sv : Services) (city start_date end_date : string) (h : log) :
  requests_of (appended h (snd (fetch_pm25 sv city start_date end_date h))) =
    GeocodingSearch city ::
    data_request_after AirQualityHourly
      (fst (get_city_coordinates sv city h)) start_date end_date /\
  requests_of (appended h (snd (fetch_weather sv city start_date end_date h))) =
    GeocodingSearch city ::
    data_request_after ArchiveHourly
      (fst (get_city_coordinates sv city h)) start_date end_date.
Proof.
  split; [apply fetch_pm25_requests|apply fetch_weather_requests].
Qed.

(** X9.  When the coordinates are resolved and the data request itself
    fails, a fetcher does not raise: it shows its error message with the
    cause and returns the empty table. *)
Theorem fetchers_return_empty_when_data_request_fails
        (sv : Services) (city start_date end_date : string)
        (h h1 : log) (lat lon : json) :
  get_city_coordinates sv city h = (Ok (lat, lon), h1) ->
  is_None lat = false ->
  (forall e,
     requests_get_json sv h1 (AirQualityHourly lat lon start_date end_date)
       = Raise e ->
     fetch_pm25 sv city start_date end_date h =
       (Ok DataFrame_new,
        (h1 ++ [HttpGet (AirQualityHourly lat lon start_date end_date);
                StError "Error fetching PM2.5 data: " (Some e)])%list)) /\
  (forall e,
     requests_get_json sv h1 (ArchiveHourly lat lon start_date end_date)
       = Raise e ->
     fetch_weather sv city start_date end_date h =
       (Ok DataFrame_new,
        (h1 ++ [HttpGet (ArchiveHourly lat lon start_date end_date);
                StError "Error fetching weather data: " (Some e)])%list)).
Proof.
  intros Hgeo Hlat. split; intros e He.
  - unfold fetch_pm25, mbind. rewrite Hgeo. cbn [Ok]. rewrite Hlat.
    unfold attempt, get_json. rewrite He.
    unfold mbind, st_error, emit, ret. cbn. now rewrite <- app_assoc.
  - unfold fetch_weather, mbind. rewrite Hgeo. cbn [Ok]. rewrite Hlat.
    unfold attempt, get_json. rewrite He.
    unfold mbind, st_error, emit, ret. cbn. now rewrite <- app_assoc.
Qed.

Lemma fetchers_return_empty_when_data_request_fails_witness :
  fetch_pm25 (services_over net_data_down) "Delhi" "2024-01-01" "2024-01-10"
             [] =
    (Ok DataFrame_new,
     ([HttpGet (GeocodingSearch "Delhi")] ++
      [HttpGet (AirQualityHourly (JNum (143 # 5)) (JNum (386 # 5))
                                 "2024-01-01" "2024-01-10");
       StError "Error fetching PM2.5 data: "
               (Some (External "timed out"))])%list) /\
  fetch_weather (services_over net_data_down) "Delhi" "2024-01-01"
                "2024-01-10" [] =
    (Ok DataFrame_new,
     ([HttpGet (GeocodingSearch "Delhi")] ++
      [HttpGet (ArchiveHourly (JNum (143 # 5)) (JNum (386 # 5))
                              "2024-01-01" "2024-01-10");
       StError "Error fetching weather data: "
               (Some (External "timed out"))])%list).
Proof.
  split.
  - apply (proj1 (fetchers_return_empty_when_data_request_fails
                    (services_over net_data_down) "Delhi" "2024-01-01"
                    "2024-01-10" [] [HttpGet (GeocodingSearch "Delhi")]
                    (JNum (143 # 5)) (JNum (386 # 5))
                    eq_refl eq_refl)).
    reflexivity.
  - apply (proj2 (fetchers_return_empty_when_data_request_fails
                    (services_over net_data_down) "Delhi" "2024-01-01"
                    "2024-01-10" [] [HttpGet (GeocodingSearch "Delhi")]
                    (JNum (143 # 5)) (JNum (386 # 5))
                    eq_refl eq_refl)).
    reflexivity.
Defined.

(** X10.  When the data reply is a JSON object without [hourly], or whose
    [hourly] object lacks a measured series ([pm2_5] for the air-quality
    fetcher, any of the three weather series for the other), the fetcher
    returns the empty table without raising, without a message and without
    building a frame. *)
Theorem fetchers_return_empty_when_series_are_absent
        (sv : Services) (city start_date end_date : string)
        (h h1 : log) (lat lon : json) (fields : list (string * json)) :
  get_city_coordinates sv city h = (Ok (lat, lon), h1) ->
  is_None lat = false ->
  (requests_get_json sv h1 (AirQualityHourly lat lon start_date end_date)
     = Ok (JObj fields) ->
   assoc "hourly" fields = None \/
   (exists hourly, assoc "hourly" fields = Some (JObj hourly) /\
                   has_key "pm2_5" hourly = false) ->
   fetch_pm25 sv city start_date end_date h =
     (Ok DataFrame_new,
      (h1 ++ [HttpGet (AirQualityHourly lat lon start_date end_date)])%list))
  /\
  (requests_get_json sv h1 (ArchiveHourly lat lon start_date end_date)
     = Ok (JObj fields) ->
   assoc "hourly" fields = None \/
   (exists hourly, assoc "hourly" fields = Some (JObj hourly) /\
                   (has_key "temperature_2m" hourly &&
                    has_key "relative_humidity_2m" hourly &&
                    has_key "windspeed_10m" hourly = false)) ->
   fetch_weather sv city start_date end_date h =
     (Ok DataFrame_new,
      (h1 ++ [HttpGet (ArchiveHourly lat lon start_date end_date)])%list)).
Proof.
  intros Hgeo Hlat. split; intros Hreply Hshape.
  - unfold fetch_pm25, mbind. rewrite Hgeo. cbn [Ok]. rewrite Hlat.
    unfold attempt, get_json. rewrite Hreply. cbn [Ok].
    unfold mbind, lift, ret, contains, getitem.
    destruct Hshape as [Hno|(hourly & Hh & Hpm)].
    + unfold has_key. rewrite Hno. reflexivity.
    + unfold has_key at 1. repeat (rewrite ?Hh; cbn).
      rewrite Hpm. reflexivity.
  - unfold fetch_weather, mbind. rewrite Hgeo. cbn [Ok]. rewrite Hlat.
    unfold attempt, get_json. rewrite Hreply. cbn [Ok].
    unfold mbind, lift, ret, contains, getitem.
    destruct Hshape as [Hno|(hourly & Hh & Hseries)].
    + unfold has_key. rewrite Hno. reflexivity.
    + unfold has_key at 1. repeat (rewrite ?Hh; cbn).
      destruct (has_key "temperature_2m" hourly); [|reflexivity].
      destruct (has_key "relative_humidity_2m" hourly); [|reflexivity].
      destruct (has_key "windspeed_10m" hourly); [discriminate|reflexivity].
Qed.

Lemma fetchers_return_empty_when_series_are_absent_witness :
  fetch_pm25 (services_over net_no_hourly) "Delhi" "2024-01-01" "2024-01-10"
             [] =
    (Ok DataFrame_new,
     ([HttpGet (GeocodingSearch "Delhi")] ++
      [HttpGet (AirQualityHourly (JNum (143 # 5)) (JNum (386 # 5))
                                 "2024-01-01" "2024-01-10")])%list) /\
  fetch_weather (services_over net_no_hourly) "Delhi" "2024-01-01"
                "2024-01-10" [] =
    (Ok DataFrame_new,
     ([HttpGet (GeocodingSearch "Delhi")] ++
      [HttpGet (ArchiveHourly (JNum (143 # 5)) (JNum (386 # 5))
                              "2024-01-01" "2024-01-10")])%list).
Proof.
  split.
  - apply (proj1 (fetchers_return_empty_when_series_are_absent
                    (services_over net_no_hourly) "Delhi" "2024-01-01"
                    "2024-01-10" [] [HttpGet (GeocodingSearch "Delhi")]
                    (JNum (143 # 5)) (JNum (386 # 5))
                    [("error", JBool true); ("reason", JStr "out of range")]
                    eq_refl eq_refl)).
    + reflexivity.
    + left. reflexivity.
  - apply (proj2 (fetchers_return_empty_when_series_are_absent
                    (services_over net_no_hourly) "Delhi" "2024-01-01"
                    "2024-01-10" [] [HttpGet (GeocodingSearch "Delhi")]
                    (JNum (143 # 5)) (JNum (386 # 5))
                    [("error", JBool true); ("reason", JStr "out of range")]
                    eq_refl eq_refl)).
    + reflexivity.
    + left. reflexivity.
Defined.

(** X11.  When the data reply is a JSON object whose [hourly] object has
    [time] and the measured series, the fetcher hands the frame
    constructor the columns [timestamp] and [pm25] (air quality), or
    [timestamp], [temperature], [relativehumidity] and [windspeed]
    (weather), in that order and filled from [time], [pm2_5],
    [temperature_2m], [relative_humidity_2m] and [windspeed_10m]; what the
    constructor returns or raises is the fetcher's outcome. *)
Theorem fetchers_build_frame_from_hourly_series
        (sv : Services) (city start_date end_date : string)
        (h h1 : log) (lat lon : json)
        (fields hourly : list (string * json)) (time : json) :
  get_city_coordinates sv city h = (Ok (lat, lon), h1) ->
  is_None lat = false ->
  assoc "hourly" fields = Some (JObj hourly) ->
  assoc "time" hourly = Some time ->
  (forall pm,
     requests_get_json sv h1 (AirQualityHourly lat lon start_date end_date)
       = Ok (JObj fields) ->
     assoc "pm2_5" hourly = Some pm ->
     fetch_pm25 sv city start_date end_date h =
       (pd_DataFrame sv [("timestamp", time); ("pm25", pm)],
        (h1 ++ [HttpGet (AirQualityHourly lat lon start_date end_date)])%list))
  /\
  (forall temp rh ws,
     requests_get_json sv h1 (ArchiveHourly lat lon start_date end_date)
       = Ok (JObj fields) ->
     assoc "temperature_2m" hourly = Some temp ->
     assoc "relative_humidity_2m" hourly = Some rh ->
     assoc "windspeed_10m" hourly = Some ws ->
     fetch_weather sv city start_date end_date h =
       (pd_DataFrame sv [("timestamp", time); ("temperature", temp);
                         ("relativehumidity", rh); ("windspeed", ws)],
        (h1 ++ [HttpGet (ArchiveHourly lat lon start_date end_date)])%list)).
Proof.
  intros Hgeo Hlat Hh Htime. split.
  - intros pm Hreply Hpm.
    unfold fetch_pm25, mbind. rewrite Hgeo. cbn [Ok]. rewrite Hlat.
    unfold attempt, get_json. rewrite Hreply. cbn [Ok].
    unfold mbind, lift, ret, contains, getitem, has_key.
    repeat (rewrite ?Hh, ?Htime, ?Hpm; cbn). reflexivity.
  - intros temp rh ws Hreply Htemp Hrh Hws.
    unfold fetch_weather, mbind. rewrite Hgeo. cbn [Ok]. rewrite Hlat.
    unfold attempt, get_json. rewrite Hreply. cbn [Ok].
    unfold mbind, lift, ret, contains, getitem, has_key.
    repeat (rewrite ?Hh, ?Htime, ?Htemp, ?Hrh, ?Hws; cbn;
            unfold has_key).
    reflexivity.
Qed.

Lemma fetchers_build_frame_from_hourly_series_witness :
  fetch_pm25 (services_over net_good) "Delhi" "2024-01-01" "2024-01-10" [] =
    (pd_DataFrame (services_over net_good)
       [("timestamp", JArr [JStr "2024-01-01T00:00"; JStr "2024-01-01T01:00"]);
        ("pm25", JArr [JNum 41; JNum 42])],
     ([HttpGet (GeocodingSearch "Delhi")] ++
      [HttpGet (AirQualityHourly (JNum (143 # 5)) (JNum (386 # 5))
                                 "2024-01-01" "2024-01-10")])%list).
Proof.
  apply (proj1 (fetchers_build_frame_from_hourly_series
                  (services_over net_good) "Delhi" "2024-01-01" "2024-01-10"
                  [] [HttpGet (GeocodingSearch "Delhi")]
                  (JNum (143 # 5)) (JNum (386 # 5))
                  [("hourly",
                    JObj [("time", JArr [JStr "2024-01-01T00:00";
                                         JStr "2024-01-01T01:00"]);
                          ("pm2_5", JArr [JNum 41; JNum 42])])]
                  [("time", JArr [JStr "2024-01-01T00:00";
                                  JStr "2024-01-01T01:00"]);
                   ("pm2_5", JArr [JNum 41; JNum 42])]
                  (JArr [JStr "2024-01-01T00:00"; JStr "2024-01-01T01:00"])
                  eq_refl eq_refl eq_refl eq_refl)).
  - reflexivity.
  - reflexivity.
Defined.

(** X12.  Whenever the data reply is a JSON object whose [hourly] object
    has the measured series but no [time] member, the fetcher raises
    [KeyError] for [time] after its request, without a message. *)
Theorem fetchers_raise_key_error_without_time
        (sv : Services) (city start_date end_date : string)
        (h h1 : log) (lat lon : json)
        (fields hourly : list (string * json)) :
  get_city_coordinates sv city h = (Ok (lat, lon), h1) ->
  is_None lat = false ->
  assoc "hourly" fields = Some (JObj hourly) ->
  assoc "time" hourly = None ->
  (requests_get_json sv h1 (AirQualityHourly lat lon start_date end_date)
     = Ok (JObj fields) ->
   has_key "pm2_5" hourly = true ->
   fetch_pm25 sv city start_date end_date h =
     (Raise (KeyError "time"),
      (h1 ++ [HttpGet (AirQualityHourly lat lon start_date end_date)])%list))
  /\
  (requests_get_json sv h1 (ArchiveHourly lat lon start_date end_date)
     = Ok (JObj fields) ->
   has_key "temperature_2m" hourly = true ->
   has_key "relative_humidity_2m" hourly = true ->
   has_key "windspeed_10m" hourly = true ->
   fetch_weather sv city start_date end_date h =
     (Raise (KeyError "time"),
      (h1 ++ [HttpGet (ArchiveHourly lat lon start_date end_date)])%list)).
Proof.
  intros Hgeo Hlat Hh Htime. split.
  - intros Hreply Hpm.
    unfold fetch_pm25, mbind. rewrite Hgeo. cbn [Ok]. rewrite Hlat.
    unfold attempt, get_json. rewrite Hreply. cbn [Ok].
    unfold mbind, lift, ret, contains, getitem.
    unfold has_key at 1.
    repeat (rewrite ?Hh, ?Htime, ?Hpm; cbn). reflexivity.
  - intros Hreply Htemp Hrh Hws.
    unfold fetch_weather, mbind. rewrite Hgeo. cbn [Ok]. rewrite Hlat.
    unfold attempt, get_json. rewrite Hreply. cbn [Ok].
    unfold mbind, lift, ret, contains, getitem.
    unfold has_key at 1.
    repeat (rewrite ?Hh, ?Htime, ?Htemp, ?Hrh, ?Hws; cbn). reflexivity.
Qed.

Lemma fetchers_raise_key_error_without_time_witness :
  fetch_pm25 (services_over net_no_time) "Delhi" "2024-01-01" "2024-01-10" [] =
    (Raise (KeyError "time"),
     ([HttpGet (GeocodingSearch "Delhi")] ++
      [HttpGet (AirQualityHourly (JNum (143 # 5)) (JNum (386 # 5))
                                 "2024-01-01" "2024-01-10")])%list).
Proof.
  apply (proj1 (fetchers_raise_key_error_without_time
                  (services_over net_no_time) "Delhi" "2024-01-01"
                  "2024-01-10" [] [HttpGet (GeocodingSearch "Delhi")]
                  (JNum (143 # 5)) (JNum (386 # 5))
                  [("hourly", JObj [("pm2_5", JArr [JNum 41; JNum 42])])]
                  [("pm2_5", JArr [JNum 41; JNum 42])]
                  eq_refl eq_refl eq_refl eq_refl)).
  - reflexivity.
  - reflexivity.
Defined.

(** X13.  Of a non-empty [results] array [get_city_coordinates] reads the
    first entry only.  When that entry is an object it returns its
    [latitude] and [longitude]; it raises [KeyError] for [latitude] when
    that member is absent, and for [longitude] when only that one is.  No
    message is shown and the one request is the geocoding one. *)
Theorem get_city_coordinates_reads_first_result
        (sv : Services) (city : string) (h : log)
        (fields entry : list (string * json)) (others : list json) :
  requests_get_json sv h (GeocodingSearch city) = Ok (JObj fields) ->
  assoc "results" fields = Some (JArr (JObj entry :: others)) ->
  get_city_coordinates sv city h =
    (match assoc "latitude" entry, assoc "longitude" entry with
     | Some lat, Some lon => Ok (lat, lon)
     | None, _ => Raise (KeyError "latitude")
     | Some _, None => Raise (KeyError "longitude")
     end,
     (h ++ [HttpGet (GeocodingSearch city)])%list).
Proof.
  intros Hreply Hres.
  unfold get_city_coordinates, attempt, get_json. rewrite Hreply. cbn [Ok].
  unfold mbind, lift, ret, contains, getitem, has_key.
  repeat (rewrite ?Hres; cbn).
  destruct (assoc "latitude" entry); cbn; [|reflexivity].
  repeat (rewrite ?Hres; cbn).
  destruct (assoc "longitude" entry); reflexivity.
Qed.

Lemma get_city_coordinates_reads_first_result_witness :
  get_city_coordinates (services_over net_delhi) "Delhi" [] =
    (Ok (JNum (143 # 5), JNum (386 # 5)),
     ([] ++ [HttpGet (GeocodingSearch "Delhi")])%list).
Proof.
  apply (get_city_coordinates_reads_first_result
           (services_over net_delhi) "Delhi" []
           [("results",
             JArr [JObj [("latitude", JNum (143 # 5));
                         ("longitude", JNum (386 # 5))]])]
           [("latitude", JNum (143 # 5)); ("longitude", JNum (386 # 5))]
           []).
  - reflexivity.
  - reflexivity.
Defined.

(** X14.  When the coordinate lookup returns an absent latitude the
    handler ends the request with the "No PM2.5 data" message and nothing
    else: no data request, no weather lookup, no exception.  When the
    geocoding call itself failed, that message follows the lookup's own
    error message. *)
Theorem on_button_stops_without_coordinates
        (sv : Services) (city start_date end_date : string) (h : log) :
  (forall lon h',
     get_city_coordinates sv city h = (Ok (JNull, lon), h') ->
     on_button sv city start_date end_date h =
       (Ok tt,
        (h' ++ [StError
                  "No PM2.5 data found for that city/time. Try different dates or city name."
                  None])%list)) /\
  (forall e,
     requests_get_json sv h (GeocodingSearch city) = Raise e ->
     on_button sv city start_date end_date h =
       (Ok tt,
        (h ++ [HttpGet (GeocodingSearch city);
               StError "Error fetching city coordinates: " (Some e);
               StError
                 "No PM2.5 data found for that city/time. Try different dates or city name."
                 None])%list)).
Proof.
  assert (Hstop : forall lon h',
    get_city_coordinates sv city h = (Ok (JNull, lon), h') ->
    on_button sv city start_date end_date h =
      (Ok tt,
       (h' ++ [StError
                 "No PM2.5 data found for that city/time. Try different dates or city name."
                 None])%list)).
  { intros lon h' Hgeo. unfold on_button, mbind.
    rewrite (fetch_pm25_without_latitude sv _ _ _ _ _ _ Hgeo eq_refl).
    reflexivity. }
  split; [exact Hstop|].
  intros e He.
  rewrite (Hstop JNull
             (h ++ [HttpGet (GeocodingSearch city);
                    StError "Error fetching city coordinates: " (Some e)])%list).
  - now rewrite <- app_assoc.
  - unfold get_city_coordinates, attempt, get_json. rewrite He.
    unfold mbind, st_error, emit, ret. cbn. now rewrite <- app_assoc.
Qed.

Lemma on_button_stops_without_coordinates_witness :
  on_button (services_over net_no_match) "Atlantis" "2024-01-01" "2024-01-10"
            [] =
    (Ok tt,
     ([HttpGet (GeocodingSearch "Atlantis")] ++
      [StError
         "No PM2.5 data found for that city/time. Try different dates or city name."
         None])%list) /\
  on_button (services_over net_down) "Delhi" "2024-01-01" "2024-01-10" [] =
    (Ok tt,
     ([] ++ [HttpGet (GeocodingSearch "Delhi");
             StError "Error fetching city coordinates: "
                     (Some (External "connection refused"));
             StError
               "No PM2.5 data found for that city/time. Try different dates or city name."
               None])%list).
Proof.
  split.
  - apply (proj1 (on_button_stops_without_coordinates
                    (services_over net_no_match) "Atlantis" "2024-01-01"
                    "2024-01-10" []) JNull).
    reflexivity.
  - apply (proj2 (on_button_stops_without_coordinates
                    (services_over net_down) "Delhi" "2024-01-01"
                    "2024-01-10" [])).
    reflexivity.
Defined.

(** X15.  The weather archive is contacted only after the PM2.5 fetch
    returned a table that is not empty. *)
Theorem weather_is_requested_only_after_pm25_data
        (sv : Services) (city start_date end_date : string) (h : log)
        (lat lon : json) (s e : string) :
  In (ArchiveHourly lat lon s e)
     (requests_of
        (appended h (snd (on_button sv city start_date end_date h)))) ->
  exists pm_df h1,
    fetch_pm25 sv city start_date end_date h = (Ok pm_df, h1) /\
    empty pm_df = false.
Proof.
  rewrite on_button_requests. cbv zeta.
  rewrite fetch_pm25_requests.
  assert (Hnot : ~ In (ArchiveHourly lat lon s e)
                   (GeocodingSearch city ::
                    data_request_after AirQualityHourly
                      (fst (get_city_coordinates sv city h))
                      start_date end_date)).
  { destruct (data_request_after_cases AirQualityHourly
                (fst (get_city_coordinates sv city h)) start_date end_date)
      as [->|(lat' & lon' & ->)]; cbn; intuition discriminate. }
  destruct (fetch_pm25 sv city start_date end_date h) as [[ex|pm_df] h1];
    cbn [fst snd]; [tauto|].
  destruct (empty pm_df) eqn:Hempty; [tauto|].
  intros _. now exists pm_df, h1.
Qed.

Lemma weather_is_requested_only_after_pm25_data_witness :
  exists pm_df h1,
    fetch_pm25 (services_over net_good) "Delhi" "2024-01-01" "2024-01-10" [] =
      (Ok pm_df, h1) /\
    empty pm_df = false.
Proof.
  apply (weather_is_requested_only_after_pm25_data
           (services_over net_good) "Delhi" "2024-01-01" "2024-01-10" []
           (JNum (143 # 5)) (JNum (386 # 5)) "2024-01-01" "2024-01-10").
  vm_compute. do 3 right. now left.
Defined.

(** X16.  A request sends at most four HTTP requests and repeats none for
    a failure: the geocoding request, one air-quality request, the
    geocoding request again (the weather fetcher resolves the city anew)
    and one archive request, always in this order and possibly cut
    short. *)
Theorem on_button_sends_at_most_four_requests
        (sv : Services) (city start_date end_date : string) (h : log) :
  exists lat lon lat' lon' n,
    (1 <= n <= 4)%nat /\
    requests_of
      (appended h (snd (on_button sv city start_date end_date h))) =
    firstn n [GeocodingSearch city;
              AirQualityHourly lat lon start_date end_date;
              GeocodingSearch city;
              ArchiveHourly lat' lon' start_date end_date].
Proof.
  rewrite on_button_requests. cbv zeta.
  rewrite fetch_pm25_requests.
  assert (Hshort : exists lat lon lat' lon' n,
    (1 <= n <= 4)%nat /\
    GeocodingSearch city ::
      data_request_after AirQualityHourly
        (fst (get_city_coordinates sv city h)) start_date end_date =
    firstn n [GeocodingSearch city;
              AirQualityHourly lat lon start_date end_date;
              GeocodingSearch city;
              ArchiveHourly lat' lon' start_date end_date]).
  { destruct (data_request_after_cases AirQualityHourly
                (fst (get_city_coordinates sv city h)) start_date end_date)
      as [->|(lat & lon & ->)].
    - exists JNull, JNull, JNull, JNull, 1%nat. split; [lia|reflexivity].
    - exists lat, lon, JNull, JNull, 2%nat. split; [lia|reflexivity]. }
  destruct (fetch_pm25 sv city start_date end_date h) as [[ex|pm_df] h1] eqn:Hpm;
    cbn [fst snd]; [exact Hshort|].
  destruct (empty pm_df) eqn:Hempty; [exact Hshort|].
  destruct (fetch_pm25_nonempty_sent_request sv _ _ _ _ _ _ Hpm Hempty)
    as (lat & lon & ->).
  rewrite fetch_weather_requests.
  destruct (data_request_after_cases ArchiveHourly
              (fst (get_city_coordinates sv city h1)) start_date end_date)
    as [->|(lat' & lon' & ->)].
  - exists lat, lon, JNull, JNull, 3%nat. split; [lia|reflexivity].
  - exists lat, lon, lat', lon', 4%nat. split; [lia|reflexivity].
Qed.

(** X17.  A success message shows a value the model returned: whenever
    the forecast block renders [st.success] with a value, the table had at
    least ten rows, the artifact was loaded, the row was assembled, the
    model's columns were selected from it, and the model was called on
    that selection and returned this value. *)
Theorem success_message_shows_a_prediction
        (sv : Services) (city : string) (t : DailyTable) (h : log)
        (y : float) :
  In (StSuccess y) (appended h (snd (forecast sv city t h))) ->
  10 <= len t /\
  exists model feature_cols X X_df,
    joblib_load sv = Ok (model, feature_cols) /\
    assemble t = Ok X /\
    select_columns X feature_cols = Ok X_df /\
    predict model X_df = Ok y /\
    In (ModelPredict X_df) (appended h (snd (forecast sv city t h))).
Proof.
  destruct (Z.lt_ge_cases (len t) 10) as [Hlt|Hge].
  { rewrite (forecast_short sv city t h Hlt). cbn [snd].
    rewrite appended_app. cbn. intuition discriminate. }
  rewrite (forecast_run sv city t h Hge).
  destruct (joblib_load sv) as [e|[model feature_cols]] eqn:Hload;
    [cbn [snd]; rewrite appended_app; cbn; intuition discriminate|].
  destruct (iloc t (-1)) as [e|last] eqn:Hlast;
    [cbn [snd]; rewrite appended_app; cbn; intuition discriminate|].
  destruct (assemble_X_pred t last) as [e|X] eqn:HX;
    [cbn [snd]; rewrite appended_app; cbn; intuition discriminate|].
  destruct (select_columns X feature_cols) as [e|X_df] eqn:Hsel;
    [cbn [snd]; rewrite appended_app; cbn; intuition discriminate|].
  destruct (predict model X_df) as [e|y'] eqn:Hy;
    cbn [snd]; rewrite appended_app; cbn;
    [intuition discriminate|].
  intros Hin. split; [exact Hge|].
  assert (y' = y) as -> by (intuition congruence).
  exists model, feature_cols, X, X_df.
  split; [reflexivity|].
  split; [unfold assemble; rewrite Hlast; exact HX|].
  split; [exact Hsel|]. split; [exact Hy|].
  right. now left.
Qed.

Lemma success_message_shows_a_prediction_witness :
  10 <= len ten_days /\
  exists model feature_cols X X_df,
    joblib_load (services_over net_good) = Ok (model, feature_cols) /\
    assemble ten_days = Ok X /\
    select_columns X feature_cols = Ok X_df /\
    predict model X_df = Ok (Num 0) /\
    In (ModelPredict X_df)
       (appended [] (snd (forecast (services_over net_good) "Delhi"
                                   ten_days []))).
Proof.
  apply (success_message_shows_a_prediction
           (services_over net_good) "Delhi" ten_days [] (Num 0)).
  vm_compute. do 3 right. now left.
Defined.

(** X18.  The forecast block renders all of its outputs or none of them.
    When it raises (the artifact cannot be loaded, the assembly or the
    selection fails, the model raises) nothing has been rendered.  When it
    returns on a table of at least ten rows it has rendered, in this order,
    the last row's timestamp and pm25, the predicted value, the chart of
    the pm25 column over all rows and the download of the whole table
    under the name of the city followed by [_daily_features.csv]. *)
Theorem forecast_renders_all_or_nothing
        (sv : Services) (city : string) (t : DailyTable) (h : log) :
  (forall e,
     fst (forecast sv city t h) = Raise e ->
     filter is_rendering (appended h (snd (forecast sv city t h))) = []) /\
  (fst (forecast sv city t h) = Ok tt ->
   10 <= len t ->
   exists last y,
     last_row t = Some last /\
     filter is_rendering (appended h (snd (forecast sv city t h))) =
       [StWrite "Latest observed daily PM2.5 (last date):"
                (timestamp last) (pm25 last);
        StSuccess y;
        StLineChart (map (fun r => (timestamp r, pm25 r)) t);
        StDownloadButton (city ++ "_daily_features.csv") t]).
Proof.
  destruct (Z.lt_ge_cases (len t) 10) as [Hlt|Hge].
  { rewrite (forecast_short sv city t h Hlt). cbn [fst snd].
    split; [discriminate|lia]. }
  rewrite (forecast_run sv city t h Hge).
  pose proof (FrameFacts.last_row_iloc t) as Hlast.
  destruct (joblib_load sv) as [e|[model feature_cols]];
    [cbn [fst snd]; rewrite appended_app; split;
     [reflexivity|discriminate]|].
  destruct (iloc t (-1)) as [e|last] eqn:Hiloc;
    [cbn [fst snd]; rewrite appended_app; split;
     [reflexivity|discriminate]|].
  destruct (assemble_X_pred t last) as [e|X];
    [cbn [fst snd]; rewrite appended_app; split;
     [reflexivity|discriminate]|].
  destruct (select_columns X feature_cols) as [e|X_df];
    [cbn [fst snd]; rewrite appended_app; split;
     [reflexivity|discriminate]|].
  destruct (predict model X_df) as [e|y];
    cbn [fst snd]; rewrite appended_app; split;
    try reflexivity; try discriminate.
  intros _ _. exists last, y. split; [|reflexivity].
  destruct (last_row t) as [r|]; destruct Hlast as [_ Hi];
    unfold Ok, Raise in Hi; try rewrite Hiloc in Hi;
    [now injection Hi as ->|discriminate Hi].
Qed.

Lemma forecast_renders_all_or_nothing_witness :
  exists last y,
    last_row ten_days = Some last /\
    filter is_rendering
      (appended [] (snd (forecast (services_over net_good) "Delhi"
                                  ten_days []))) =
      [StWrite "Latest observed daily PM2.5 (last date):"
               (timestamp last) (pm25 last);
       StSuccess y;
       StLineChart (map (fun r => (timestamp r, pm25 r)) ten_days);
       StDownloadButton ("Delhi" ++ "_daily_features.csv") ten_days].
Proof.
  apply (proj2 (forecast_renders_all_or_nothing
                  (services_over net_good) "Delhi" ten_days [])).
  - vm_compute. reflexivity.
  - vm_compute. discriminate.
Defined.

(** X19.  The forecast block calls [load_model()] exactly once when the
    table has at least ten rows and not at all otherwise, and it calls
    [model.predict] at most once. *)
Theorem forecast_loads_model_once_when_needed
        (sv : Services) (city : string) (t : DailyTable) (h : log) :
  filter is_load_model (appended h (snd (forecast sv city t h))) =
    (if len t <? 10 then [] else [LoadModel]) /\
  (List.length
     (filter is_prediction (appended h (snd (forecast sv city t h))))
   <= 1)%nat.
Proof.
  destruct (Z.ltb_spec (len t) 10) as [Hlt|Hge].
  { rewrite (forecast_short sv city t h Hlt). cbn [snd].
    rewrite appended_app. cbn. split; [reflexivity|lia]. }
  rewrite (forecast_run sv city t h Hge).
  destruct (joblib_load sv) as [e|[model feature_cols]];
    [cbn [snd]; rewrite appended_app; cbn; split; [reflexivity|lia]|].
  destruct (iloc t (-1)) as [e|last];
    [cbn [snd]; rewrite appended_app; cbn; split; [reflexivity|lia]|].
  destruct (assemble_X_pred t last) as [e|X];
    [cbn [snd]; rewrite appended_app; cbn; split; [reflexivity|lia]|].
  destruct (select_columns X feature_cols) as [e|X_df];
    [cbn [snd]; rewrite appended_app; cbn; split; [reflexivity|lia]|].
  destruct (predict model X_df) as [e|y];
    cbn [snd]; rewrite appended_app; cbn; split; try reflexivity; lia.
Qed.

(** X20.  The handler shows at most one message of its own per request,
    and which one is decided as follows: "No PM2.5 data" when the PM2.5
    table is empty; else "Couldn't fetch meteorology" when the weather
    table is empty; else the "Not enough daily rows" warning when the
    daily table has fewer than ten rows; none when a fetcher or the
    feature builder raised or when the forecast block ran. *)
Theorem on_button_shows_at_most_one_message
        (sv : Services) (city start_date end_date : string) (h : log) :
  let pm_run := fetch_pm25 sv city start_date end_date h in
  let met_run := fetch_weather sv city start_date end_date (snd pm_run) in
  handler_messages
    (appended h (snd (on_button sv city start_date end_date h))) =
  match fst pm_run with
  | inl _ => []
  | inr pm_df =>
      if empty pm_df then
        ["No PM2.5 data found for that city/time. Try different dates or city name."]
      else
        match fst met_run with
        | inl _ => []
        | inr met_df =>
            if empty met_df then ["Couldn't fetch meteorology."]
            else
              match make_daily_features sv pm_df met_df with
              | inl _ => []
              | inr t =>
                  if len t <? 10 then
                    ["Not enough daily rows after feature creation for stable prediction."]
                  else []
              end
        end
  end.
Proof.
  cbv zeta. unfold on_button, mbind.
  destruct (appends_only_extends no_handler_message _ h
              (fetch_pm25_no_handler_message sv city start_date end_date))
    as [E1 P1].
  destruct (fetch_pm25 sv city start_date end_date h) as [[e|pm_df] h1];
    cbn [fst snd] in *.
  { now apply handler_messages_none. }
  set (a1 := appended h h1) in *.
  destruct (empty pm_df).
  { unfold st_error, emit. cbn [snd]. rewrite E1 at 1.
    rewrite <- app_assoc, appended_app, handler_messages_app.
    now rewrite (handler_messages_none _ P1). }
  destruct (appends_only_extends no_handler_message _ h1
              (fetch_weather_no_handler_message sv city start_date end_date))
    as [E2 P2].
  destruct (fetch_weather sv city start_date end_date h1) as [[e|met_df] h2];
    cbn [fst snd] in *.
  { rewrite E2, E1 at 1. rewrite <- app_assoc, appended_app.
    rewrite handler_messages_app.
    now rewrite (handler_messages_none _ P1), (handler_messages_none _ P2). }
  set (a2 := appended h1 h2) in *.
  assert (Hh2 : forall l, handler_messages (appended h (h2 ++ l)%list) =
                          handler_messages l).
  { intros l. rewrite E2, E1 at 1.
    rewrite <- !app_assoc, appended_app. rewrite !handler_messages_app.
    now rewrite (handler_messages_none _ P1), (handler_messages_none _ P2). }
  destruct (empty met_df).
  { unfold st_error, emit. cbn [snd]. now rewrite Hh2. }
  unfold lift.
  destruct (make_daily_features sv pm_df met_df) as [e|t]; cbn [snd].
  { now rewrite <- (app_nil_r h2), Hh2. }
  unfold reset_index.
  destruct (Z.ltb_spec (len t) 10) as [Hlt|Hge].
  - rewrite (forecast_short sv city t h2 Hlt). cbn [snd]. now rewrite Hh2.
  - rewrite (forecast_run sv city t h2 Hge).
    destruct (joblib_load sv) as [e|[model feature_cols]];
      [cbn [snd]; now rewrite Hh2|].
    destruct (iloc t (-1)) as [e|last]; [cbn [snd]; now rewrite Hh2|].
    destruct (assemble_X_pred t last) as [e|X];
      [cbn [snd]; now rewrite Hh2|].
    destruct (select_columns X feature_cols) as [e|X_df];
      [cbn [snd]; now rewrite Hh2|].
    destruct (predict model X_df) as [e|y]; cbn [snd]; now rewrite Hh2.
Qed.
